(** * pi-rc522: the RC522 register protocol engine (src/pirc522/rfid.py)

    A shallow embedding of class [RFID].  Python integers are [Z], lists of
    bytes are [list Z], the reader session is a record that is threaded
    through a state-and-exception monad, and the serial bus is an arbitrary
    transport [xfer2] acting on an abstract device state. *)

From Stdlib Require Import ZArith List Bool Lia.
Import ListNotations.
Local Open Scope Z_scope.

(** ** Python values *)

(** Truth value of an integer ([bool] is the sub-type {0, 1} of [int]). *)
Definition truthy (z : Z) : bool := negb (z =? 0).

Definition Z_of_bool (b : bool) : Z := if b then 1 else 0.

(** [a and b] returns an operand, not a boolean. *)
Definition py_and (a b : Z) : Z := if truthy a then b else a.

(** [~x] on integers is [-x-1]. *)
Definition py_invert (x : Z) : Z := Z.lnot x.

Definition is_byte (z : Z) : Prop := 0 <= z < 256.

Definition is_byteb (z : Z) : bool := (0 <=? z) && (z <? 256).

(** List slicing [l[lo:hi]] with Python's treatment of negative and
    out-of-range bounds. *)
Definition py_bound (len i : Z) : Z :=
  Z.max 0 (Z.min len (if i <? 0 then i + len else i)).

Definition py_slice (l : list Z) (lo hi : Z) : list Z :=
  let len := Z.of_nat (length l) in
  let a := py_bound len lo in
  let b := py_bound len hi in
  firstn (Z.to_nat (b - a)) (skipn (Z.to_nat a) l).

(** [int.from_bytes(l, 'big')] without the range check. *)
Definition big_endian (l : list Z) : Z :=
  fold_left (fun acc b => acc * 256 + b) l 0.

(** Exceptions the embedded code can raise.  [OutOfFuel] is not a Python
    exception: it marks a [while True] loop that outlives the fuel given to
    its model. *)
Inductive exn : Type := ValueError | IndexError | OutOfFuel.

Inductive result (A : Type) : Type :=
| Ok (a : A)
| Raise (e : exn).
Arguments Ok {A} a.
Arguments Raise {A} e.

(** What [read_id] returns: [None], a list of bytes or an integer. *)
Inductive py_uid : Type :=
| PyNone
| PyList (l : list Z)
| PyInt (n : Z).

(** ** Register map and command codes *)

Definition addr_CommandReg : Z := 0x01.
Definition addr_ComIEnReg : Z := 0x02.
Definition addr_DivIEnReg : Z := 0x03.
Definition addr_ComIrqReq : Z := 0x04.
Definition addr_DivIrqReg : Z := 0x05.
Definition addr_ErrorReg : Z := 0x06.
Definition addr_Status2Reg : Z := 0x08.
Definition addr_FIFODataReg : Z := 0x09.
Definition addr_FIFOLevelReg : Z := 0x0A.
Definition addr_ControlReg : Z := 0x0C.
Definition addr_BitFramingReg : Z := 0x0D.
Definition addr_RFCfgReg : Z := 0x26.
Definition addr_CRCResultReg21 : Z := 0x21.
Definition addr_CRCResultReg22 : Z := 0x22.

Definition mode_idle : Z := 0x00.
Definition mode_auth : Z := 0x0E.
Definition mode_transrec : Z := 0x0C.
Definition mode_crc : Z := 0x03.

Definition auth_a : Z := 0x60.
Definition auth_b : Z := 0x61.

Definition act_write : Z := 0xA0.
Definition act_anticl : Z := 0x93.
Definition act_anticl2 : Z := 0x95.
Definition act_select : Z := 0x93.
Definition act_end : Z := 0x50.

(** [RFID.length], the FIFO drain limit. *)
Definition length_ : Z := 16.

(** Registers and codes used by initialisation and block read. *)
Definition addr_ModeReg : Z := 0x11.
Definition addr_TxControlReg : Z := 0x14.
Definition addr_TxASKReg : Z := 0x15.
Definition addr_TModeReg : Z := 0x2A.
Definition addr_TPrescalerReg : Z := 0x2B.
Definition addr_TReloadReg2C : Z := 0x2C.
Definition addr_TReloadReg2D : Z := 0x2D.

Definition bit_Tx1RFEn : Z := Z.shiftl 1 0.
Definition bit_Tx2RFEn : Z := Z.shiftl 1 1.

Definition mode_reset : Z := 0x0F.

Definition act_read : Z := 0x30.

(** ** The reader session *)

(** Protocol procedures, as recorded in the session's call trace. *)
Inductive proc : Type :=
| CRequest | CAnticoll | CAnticoll2 | CSelectTag | CCardAuth
| CStopCrypto | CHalt | CWrite.

Definition proc_eqb (a b : proc) : bool :=
  match a, b with
  | CRequest, CRequest | CAnticoll, CAnticoll | CAnticoll2, CAnticoll2
  | CSelectTag, CSelectTag | CCardAuth, CCardAuth
  | CStopCrypto, CStopCrypto | CHalt, CHalt | CWrite, CWrite => true
  | _, _ => false
  end.

(** Number of calls of procedure [p] in a call trace. *)
Definition count_calls (p : proc) (tr : list proc) : nat :=
  length (filter (proc_eqb p) tr).

(** One bus exchange: the bytes sent and the bytes received. *)
Definition exchange : Type := (list Z * list Z)%type.

(** The fields of an [RFID] instance the protocol engine uses.  [spi] is the
    state of the device behind the bus; [spi_log] and [calls] are ghost
    fields: every exchange made through [xfer2], oldest first, and every
    protocol procedure entered, oldest first. *)
Record RFID (Dev : Type) : Type := mkRFID {
  spi : Dev;
  spi_log : list exchange;
  pin_ce : Z;
  output_ce : bool;
  antenna_gain : Z;
  authed : bool;
  calls : list proc
}.
Arguments mkRFID {Dev}.
Arguments spi {Dev}.
Arguments spi_log {Dev}.
Arguments pin_ce {Dev}.
Arguments output_ce {Dev}.
Arguments antenna_gain {Dev}.
Arguments authed {Dev}.
Arguments calls {Dev}.

Definition set_output_ce {Dev} (v : bool) (s : RFID Dev) : RFID Dev :=
  mkRFID (spi s) (spi_log s) (pin_ce s) v (antenna_gain s) (authed s) (calls s).

Definition set_gain {Dev} (g : Z) (s : RFID Dev) : RFID Dev :=
  mkRFID (spi s) (spi_log s) (pin_ce s) (output_ce s) g (authed s) (calls s).

Definition set_authed {Dev} (b : bool) (s : RFID Dev) : RFID Dev :=
  mkRFID (spi s) (spi_log s) (pin_ce s) (output_ce s) (antenna_gain s) b (calls s).

Definition exchanged {Dev} (d : Dev) (e : exchange) (s : RFID Dev) : RFID Dev :=
  mkRFID d (spi_log s ++ [e]) (pin_ce s) (output_ce s) (antenna_gain s)
         (authed s) (calls s).

(** Entering protocol procedure [p]. *)
Definition enter {Dev} (p : proc) (s : RFID Dev) : RFID Dev :=
  mkRFID (spi s) (spi_log s) (pin_ce s) (output_ce s) (antenna_gain s)
         (authed s) (calls s ++ [p]).

(** ** A simulated chip

    A transport double for concrete runs: every read frame address has a
    queue of values that successive reads return, the last one repeating;
    writes are accepted and ignored. *)
Definition Sim : Type := list (Z * list Z).

Fixpoint sim_read (a : Z) (d : Sim) : Z * Sim :=
  match d with
  | [] => (0, [])
  | (k, q) :: rest =>
      if k =? a then
        match q with
        | [] => (0, d)
        | [v] => (v mod 256, d)
        | v :: q' => (v mod 256, (k, q') :: rest)
        end
      else let '(v, rest') := sim_read a rest in (v, (k, q) :: rest')
  end.

Definition sim_xfer2 (d : Sim) (data : list Z) : list Z * Sim :=
  match data with
  | [a; _] =>
      if 0x80 <=? a then let '(v, d') := sim_read a d in ([0; v], d')
      else ([0; 0], d)
  | _ => (map (fun _ => 0) data, d)
  end.

(** A fresh session on a simulated chip (class defaults: gain 4, not
    authenticated, no chip-select pin). *)
Definition sim_session (d : Sim) : RFID Sim :=
  mkRFID d [] 0 false 0x04 false [].

(** Read frame address of a register. *)
Definition read_frame (address : Z) : Z :=
  Z.lor (Z.land (Z.shiftl address 1) 0x7E) 0x80.

(** Simulated chips.  Every transceive pops the FIFO level queue once when
    it flushes the FIFO and once when it reads the fill level; every CRC
    computation pops it once. *)

(** No card in the field: every register reads 0. *)
Definition chip_idle : Sim := [].

(** The timer expires but nothing is received: the interrupt-request
    register reads 0x01. *)
Definition chip_timer : Sim := [(read_frame addr_ComIrqReq, [0x01])].

(** A card with the 4-byte UID 01 02 03 04: 16 bits answer the request,
    then 5 bytes answer the anti-collision command. *)
Definition chip_uid4 : Sim :=
  [(read_frame addr_ComIrqReq, [0x30]);
   (read_frame addr_FIFOLevelReg, [0; 2; 0; 5]);
   (read_frame addr_FIFODataReg, [0x04; 0x00; 1; 2; 3; 4; 4])].

(** A card with the 7-byte UID 01 .. 07: the first anti-collision round
    answers with the cascade tag, the selection is acknowledged with 24
    bits, and the second round gives the last four bytes. *)
Definition chip_uid7 : Sim :=
  [(read_frame addr_ComIrqReq, [0x30]);
   (read_frame addr_DivIrqReg, [0x04]);
   (read_frame addr_FIFOLevelReg, [0; 2; 0; 5; 0; 0; 3; 0; 5]);
   (read_frame addr_FIFODataReg,
    [0x44; 0x00; 0x88; 1; 2; 3; 0x88; 0x04; 0xDA; 0x17; 4; 5; 6; 7; 0])].

(** A card that answers the write command with the 4-bit NACK 0x5. *)
Definition chip_nack : Sim :=
  [(read_frame addr_ComIrqReq, [0x30]);
   (read_frame addr_DivIrqReg, [0x04]);
   (read_frame addr_FIFOLevelReg, [0; 0; 1]);
   (read_frame addr_ControlReg, [4]);
   (read_frame addr_FIFODataReg, [0x05])].

(** A card that acknowledges the write command and rejects the data. *)
Definition chip_ack_nack : Sim :=
  [(read_frame addr_ComIrqReq, [0x30]);
   (read_frame addr_DivIrqReg, [0x04]);
   (read_frame addr_FIFOLevelReg, [0; 0; 1; 0; 0; 1]);
   (read_frame addr_ControlReg, [4]);
   (read_frame addr_FIFODataReg, [0x0A; 0x05])].

(** A card that authenticates: the crypto unit reports active. *)
Definition chip_auth : Sim :=
  [(read_frame addr_ComIrqReq, [0x10]);
   (read_frame addr_Status2Reg, [0x08])].

(** A transceive that completes with an empty FIFO. *)
Definition chip_empty_fifo : Sim :=
  [(read_frame addr_ComIrqReq, [0x30]);
   (read_frame addr_FIFODataReg, [0x5A])].

(** The same, with 3 in the last-bits field of the control register. *)
Definition chip_empty_fifo_bits : Sim :=
  [(read_frame addr_ComIrqReq, [0x30]);
   (read_frame addr_ControlReg, [3]);
   (read_frame addr_FIFODataReg, [0x5A])].

(** The authenticate command never completes, yet the status register
    shows the crypto unit active. *)
Definition chip_crypto_stuck : Sim := [(read_frame addr_Status2Reg, [0x08])].

(** A card that answers a block read with 16 bytes, a first time with the
    bytes 0 .. 15. *)
Definition chip_block : Sim :=
  [(read_frame addr_ComIrqReq, [0x30]);
   (read_frame addr_DivIrqReg, [0x04]);
   (read_frame addr_FIFOLevelReg, [0; 0; 16]);
   (read_frame addr_FIFODataReg,
    [0; 1; 2; 3; 4; 5; 6; 7; 8; 9; 10; 11; 12; 13; 14; 15])].

(** A bus with nothing attached: every byte received is 0. *)
Definition dead_xfer2 (d : unit) (data : list Z) : list Z * unit :=
  (map (fun _ => 0) data, d).

Definition dead_session : RFID unit := mkRFID tt [] 0 false 0x04 false [].

(** ** The driver, over an arbitrary transport *)

Section Driver.

Variable Dev : Type.

(** [spi.xfer2]: one full-duplex exchange on the bus. *)
Variable xfer2 : Dev -> list Z -> list Z * Dev.

(** Computations on the session: they return a value or raise, and in both
    cases leave the session as mutated so far. *)
Definition M (A : Type) : Type := RFID Dev -> result A * RFID Dev.

Definition ret {A} (a : A) : M A := fun s => (Ok a, s).

Definition raise {A} (e : exn) : M A := fun s => (Raise e, s).

Definition bind {A B} (m : M A) (f : A -> M B) : M B :=
  fun s =>
    match m s with
    | (Ok a, s') => f a s'
    | (Raise e, s') => (Raise e, s')
    end.

Notation "x <- c1 ;; c2" := (bind c1 (fun x => c2))
  (at level 61, c1 at next level, right associativity).
Notation "' pat <- c1 ;; c2" := (bind c1 (fun x => match x with pat => c2 end))
  (at level 61, pat pattern, c1 at next level, right associativity).
Notation "c1 ;; c2" := (bind c1 (fun _ => c2))
  (at level 61, right associativity).

(** Attribute update. *)
Definition modify (f : RFID Dev -> RFID Dev) : M unit := fun s => (Ok tt, f s).

(** A protocol procedure whose body is [m]: the call is recorded, then the
    body runs. *)
Definition procedure {A} (p : proc) (m : M A) : M A := fun s => m (enter p s).

(** [l[i]] for a literal index [i >= 0]. *)
Definition py_index (l : list Z) (i : nat) : M Z :=
  match nth_error l i with
  | Some v => ret v
  | None => raise IndexError
  end.

(** [for i in range(count): buf.append(src[start + i])]. *)
Fixpoint append_items (buf src : list Z) (start count : nat) : M (list Z) :=
  match count with
  | O => ret buf
  | S count' =>
      v <- py_index src start ;;
      append_items (buf ++ [v]) src (S start) count'
  end.

(** [int.from_bytes(l, 'big')]: the list is converted to [bytes] first,
    which rejects items outside [range(256)]. *)
Definition int_from_bytes_big (l : list Z) : M Z :=
  if forallb is_byteb l then ret (big_endian l) else raise ValueError.

(** *** Register access layer *)

Definition spi_transfer (data : list Z) : M (list Z) :=
  fun s =>
    let s := if negb (pin_ce s =? 0) then set_output_ce false s else s in
    let '(r, d) := xfer2 (spi s) data in
    let s := exchanged d (data, r) s in
    let s := if negb (pin_ce s =? 0) then set_output_ce true s else s in
    (Ok r, s).

Definition dev_write (address value : Z) : M unit :=
  spi_transfer [Z.land (Z.shiftl address 1) 0x7E; value] ;;
  ret tt.

Definition dev_read (address : Z) : M Z :=
  r <- spi_transfer [Z.lor (Z.land (Z.shiftl address 1) 0x7E) 0x80; 0] ;;
  py_index r 1.

Definition set_bitmask (address mask : Z) : M unit :=
  current <- dev_read address ;;
  dev_write address (Z.lor current mask).

Definition clear_bitmask (address mask : Z) : M unit :=
  current <- dev_read address ;;
  dev_write address (Z.land current (py_invert mask)).

Definition set_antenna_gain (gain : Z) : M unit :=
  if (0 <=? gain) && (gain <=? 7) then
    modify (set_gain gain) ;;
    fun s => dev_write addr_RFCfgReg (Z.shiftl (antenna_gain s) 4) s
  else raise ValueError.

Definition disable_interrupts : M unit :=
  dev_write addr_ComIrqReq 0x14 ;;
  dev_write addr_ComIEnReg 0x80 ;;
  dev_write addr_DivIEnReg 0x00 ;;
  dev_write addr_DivIrqReg 0x00.

(** *** Command executor *)

(** [for i in range(len(data)): self.dev_write(self.addr_FIFODataReg, data[i])] *)
Fixpoint write_fifo (data : list Z) : M unit :=
  match data with
  | [] => ret tt
  | b :: rest => dev_write addr_FIFODataReg b ;; write_fifo rest
  end.

(** [for i in range(n): back_data.append(self.dev_read(self.addr_FIFODataReg))] *)
Fixpoint read_fifo (n : nat) (back_data : list Z) : M (list Z) :=
  match n with
  | O => ret back_data
  | S n' =>
      v <- dev_read addr_FIFODataReg ;;
      read_fifo n' (back_data ++ [v])
  end.

(** Lines 214-224: the interrupt-enable mask [irq] and the wait-for bits
    [irq_wait] of a command. *)
Definition irq_masks (command : Z) : Z * Z :=
  let irq := 0x00 in
  let irq_wait := 0x00 in
  let '(irq, irq_wait) :=
    if command =? mode_auth then (0x12, 0x10) else (irq, irq_wait) in
  let '(irq, irq_wait) :=
    if command =? mode_transrec then (0x77, 0x30) else (irq, irq_wait) in
  (irq, irq_wait).

(** Line 243, the [break] condition of the completion loop:
    [~((i != 0) and ~(n & 0x01) and ~(n & irq_wait))]. *)
Definition poll_break (i n irq_wait : Z) : bool :=
  truthy
    (py_invert
       (py_and (py_and (Z_of_bool (negb (i =? 0)))
                       (py_invert (Z.land n 0x01)))
               (py_invert (Z.land n irq_wait)))).

(** Lines 240-244, the [while True] loop, entered with counter [i]; its
    result is the last polled byte [n] and the counter on exit. *)
Fixpoint poll_irq (fuel : nat) (irq_wait i : Z) : M (Z * Z) :=
  match fuel with
  | O => raise OutOfFuel
  | S fuel' =>
      n <- dev_read addr_ComIrqReq ;;
      let i := i - 1 in
      if poll_break i n irq_wait then ret (n, i)
      else poll_irq fuel' irq_wait i
  end.

(** Lines 226-244 of [card_write]: program the interrupts, load the FIFO,
    start the command and poll for completion. *)
Definition card_write_issue (command : Z) (data : list Z) : M (Z * Z) :=
  let '(irq, irq_wait) := irq_masks command in
  dev_write addr_ComIEnReg (Z.lor irq 0x80) ;;
  clear_bitmask addr_ComIrqReq 0x80 ;;
  set_bitmask addr_FIFOLevelReg 0x80 ;;
  dev_write addr_CommandReg mode_idle ;;
  write_fifo data ;;
  dev_write addr_CommandReg command ;;
  (if command =? mode_transrec then set_bitmask addr_BitFramingReg 0x80
   else ret tt) ;;
  poll_irq 2000 irq_wait 2000.

(** Lines 246-276 of [card_write], given the last polled byte [n] and the
    counter [i] left by the loop. *)
Definition card_write_collect (command n i : Z) : M (bool * list Z * Z) :=
  let '(irq, _) := irq_masks command in
  clear_bitmask addr_BitFramingReg 0x80 ;;
  if negb (i =? 0) then
    e <- dev_read addr_ErrorReg ;;
    if Z.land e 0x1B =? 0x00 then
      let error := false in
      let error := if truthy (Z.land (Z.land n irq) 0x01) then true else error in
      if command =? mode_transrec then
        n <- dev_read addr_FIFOLevelReg ;;
        c <- dev_read addr_ControlReg ;;
        let last_bits := Z.land c 0x07 in
        let back_length :=
          if negb (last_bits =? 0) then (n - 1) * 8 + last_bits else n * 8 in
        let n := if n =? 0 then 1 else n in
        let n := if n >? length_ then length_ else n in
        back_data <- read_fifo (Z.to_nat n) [] ;;
        ret (error, back_data, back_length)
      else ret (error, [], 0)
    else ret (true, [], 0)
  else ret (false, [], 0).

Definition card_write (command : Z) (data : list Z) : M (bool * list Z * Z) :=
  '(n, i) <- card_write_issue command data ;;
  card_write_collect command n i.

(** *** CRC engine *)

(** Line 399: [not ((i != 0) and not (n & 0x04))]. *)
Definition crc_break (i n : Z) : bool :=
  negb (negb (i =? 0) && negb (truthy (Z.land n 0x04))).

Fixpoint poll_crc (fuel : nat) (i : Z) : M (Z * Z) :=
  match fuel with
  | O => raise OutOfFuel
  | S fuel' =>
      n <- dev_read addr_DivIrqReg ;;
      let i := i - 1 in
      if crc_break i n then ret (n, i) else poll_crc fuel' i
  end.

Definition calculate_crc (data : list Z) : M (list Z) :=
  clear_bitmask addr_DivIrqReg 0x04 ;;
  set_bitmask addr_FIFOLevelReg 0x80 ;;
  write_fifo data ;;
  dev_write addr_CommandReg mode_crc ;;
  poll_crc 255 255 ;;
  lo <- dev_read addr_CRCResultReg22 ;;
  hi <- dev_read addr_CRCResultReg21 ;;
  ret [lo; hi].

(** *** Protocol procedures *)

Definition request (req_mode : Z) : M (bool * option Z) :=
  procedure CRequest (
    dev_write addr_BitFramingReg 0x07 ;;
    '(error, back_data, back_bits) <- card_write mode_transrec [req_mode] ;;
    if error || negb (back_bits =? 0x10) then ret (true, None)
    else ret (false, Some back_bits)).

(** Lines 348-356, shared by [anticoll] and [anticoll2]. *)
Definition anticoll_check (error : bool) (back_data : list Z) : M bool :=
  if negb error then
    if (length back_data =? 5)%nat then
      b0 <- py_index back_data 0 ;;
      b1 <- py_index back_data 1 ;;
      b2 <- py_index back_data 2 ;;
      b3 <- py_index back_data 3 ;;
      let serial_number_check :=
        Z.lxor (Z.lxor (Z.lxor (Z.lxor 0 b0) b1) b2) b3 in
      b4 <- py_index back_data 4 ;;
      if negb (serial_number_check =? b4) then ret true else ret error
    else ret true
  else ret error.

Definition anticoll : M (bool * list Z) :=
  procedure CAnticoll (
    dev_write addr_BitFramingReg 0x00 ;;
    '(error, back_data, back_bits) <-
      card_write mode_transrec [act_anticl; 0x20] ;;
    error <- anticoll_check error back_data ;;
    ret (error, back_data)).

Definition anticoll2 : M (bool * list Z) :=
  procedure CAnticoll2 (
    dev_write addr_BitFramingReg 0x00 ;;
    '(error, back_data, back_bits) <-
      card_write mode_transrec [act_anticl2; 0x20] ;;
    error <- anticoll_check error back_data ;;
    ret (error, back_data)).

Definition select_tag (uid : list Z) : M bool :=
  procedure CSelectTag (
    buf <- append_items [act_select; 0x70] uid 0 5 ;;
    crc <- calculate_crc buf ;;
    c0 <- py_index crc 0 ;;
    c1 <- py_index crc 1 ;;
    '(error, back_data, back_length) <-
      card_write mode_transrec (buf ++ [c0] ++ [c1]) ;;
    if negb error && (back_length =? 0x18) then ret false else ret true).

Definition card_auth (auth_mode block_address : Z) (key uid : list Z) : M bool :=
  procedure CCardAuth (
    let buf := [auth_mode; block_address] ++ key in
    buf <- append_items buf uid 0 4 ;;
    '(error, back_data, back_length) <- card_write mode_auth buf ;;
    status <- dev_read addr_Status2Reg ;;
    let error := if negb (negb (Z.land status 0x08 =? 0)) then true else error in
    (if negb error then modify (set_authed true) else ret tt) ;;
    ret error).

Definition stop_crypto : M unit :=
  procedure CStopCrypto (
    clear_bitmask addr_Status2Reg 0x08 ;;
    modify (set_authed false)).

Definition halt : M unit :=
  procedure CHalt (
    let buf := [act_end; 0] in
    calculate_crc buf ;;
    clear_bitmask addr_Status2Reg 0x80 ;;
    card_write mode_transrec buf ;;
    clear_bitmask addr_Status2Reg 0x08 ;;
    modify (set_authed false)).

(** Lines 509 and 521:
    [not(back_length == 4) or not((back_data[0] & 0x0F) == 0x0A)]. *)
Definition ack_missing (back_data : list Z) (back_length : Z) : M bool :=
  if negb (back_length =? 4) then ret true
  else
    b <- py_index back_data 0 ;;
    ret (negb (Z.land b 0x0F =? 0x0A)).

(** Lines 505-508 and 517-520, one phase of [write]: append the CRC of
    [buf] and transceive. *)
Definition write_phase (buf : list Z) : M (bool * list Z * Z) :=
  crc <- calculate_crc buf ;;
  c0 <- py_index crc 0 ;;
  c1 <- py_index crc 1 ;;
  card_write mode_transrec (buf ++ [c0] ++ [c1]).

Definition write (block_address : Z) (data : list Z) : M bool :=
  procedure CWrite (
    '(error, back_data, back_length) <- write_phase [act_write; block_address] ;;
    nack <- ack_missing back_data back_length ;;
    let error := if nack then true else error in
    if negb error then
      buf_w <- append_items [] data 0 16 ;;
      '(error, back_data, back_length) <- write_phase buf_w ;;
      nack <- ack_missing back_data back_length ;;
      let error := if nack then true else error in
      ret error
    else ret error).

Definition read_id (as_number : bool) : M py_uid :=
  '(error, tag_type) <- request 0x26 ;;
  if error then ret PyNone else
  '(error, uid) <- anticoll ;;
  if error then ret PyNone else
  u0 <- py_index uid 0 ;;
  if negb (u0 =? 0x88) then
    if as_number then n <- int_from_bytes_big (py_slice uid 0 4) ;; ret (PyInt n)
    else ret (PyList (py_slice uid 0 4))
  else
  error <- select_tag uid ;;
  if error then ret PyNone else
  '(error, uid2) <- anticoll2 ;;
  if error then ret PyNone else
  disable_interrupts ;;
  let real_uid := py_slice uid 1 (-1) ++ py_slice uid2 0 (-1) in
  if as_number then n <- int_from_bytes_big real_uid ;; ret (PyInt n)
  else ret (PyList real_uid).

(** *** Initialisation, block read and teardown *)

(** Line 195 tests [~(current & val)], an integer. *)
Definition set_antenna (state : bool) : M unit :=
  let val := Z.lor bit_Tx1RFEn bit_Tx2RFEn in
  if state then
    current <- dev_read addr_TxControlReg ;;
    if truthy (py_invert (Z.land current val))
    then set_bitmask addr_TxControlReg val
    else ret tt
  else clear_bitmask addr_TxControlReg val.

(** Line 557 assigns a local variable [authed], not the attribute. *)
Definition reset : M unit :=
  let authed := false in
  dev_write addr_CommandReg mode_reset.

Definition init : M unit :=
  reset ;;
  disable_interrupts ;;
  dev_write addr_TModeReg 0x8D ;;
  dev_write addr_TPrescalerReg 0x3E ;;
  dev_write addr_TReloadReg2D 30 ;;
  dev_write addr_TReloadReg2C 0 ;;
  dev_write addr_TxASKReg 0x40 ;;
  dev_write addr_ModeReg 0x3D ;;
  (fun s => set_antenna_gain (antenna_gain s) s) ;;
  set_antenna true.

(** Lines 484-490 are the sequence of [write_phase] on [[act_read; block]].
    [read] is not one of the procedures of [proc]: it leaves the call trace
    alone. *)
Definition read (block_address : Z) : M (bool * list Z) :=
  '(error, back_data, back_length) <- write_phase [act_read; block_address] ;;
  let error := if negb (length back_data =? 16)%nat then true else error in
  ret (error, back_data).

Definition cleanup : M unit :=
  fun s => if authed s then stop_crypto s else ret tt s.

(** ** Specification vocabulary *)

(** Write frame address of a register. *)
Definition write_frame (address : Z) : Z := Z.land (Z.shiftl address 1) 0x7E.

(** An ACK: a response of exactly 4 bits whose first byte has low nibble
    0x0A. *)
Definition is_ack (back_data : list Z) (back_length : Z) : Prop :=
  back_length = 4 /\
  exists b, hd_error back_data = Some b /\ Z.land b 0x0F = 0x0A.

(** [s'] differs from [s] by bus traffic only: configuration, the
    authenticated flag and the call trace are those of [s]. *)
Definition io_only (s s' : RFID Dev) : Prop :=
  pin_ce s' = pin_ce s /\ antenna_gain s' = antenna_gain s /\
  authed s' = authed s /\ calls s' = calls s.

(** [m] always returns, with a value satisfying [Q], and does bus traffic
    only. *)
Definition runs {A} (m : M A) (Q : A -> Prop) : Prop :=
  forall s, exists a s', m s = (Ok a, s') /\ io_only s s' /\ Q a.

(** [m] always returns, does bus traffic only, and makes between [lo] and
    [hi] bus exchanges. *)
Definition traffic (lo hi : nat) {A} (m : M A) : Prop :=
  forall s, exists a s' l,
    m s = (Ok a, s') /\ io_only s s' /\
    spi_log s' = spi_log s ++ l /\ (lo <= length l <= hi)%nat.

(** Only byte values were sent on the bus so far. *)
Definition sent_bytes (s : RFID Dev) : Prop :=
  Forall (fun e : exchange => Forall is_byte (fst e)) (spi_log s).

(** [m] keeps invariant [I], whether it returns or raises. *)
Definition keeps (I : RFID Dev -> Prop) {A} (m : M A) : Prop :=
  forall s, I s -> I (snd (m s)).

(** The transport is full duplex on bytes: it answers with as many bytes as
    it was sent. *)
Hypothesis xfer2_wf : forall d data,
  length (fst (xfer2 d data)) = length data /\
  Forall is_byte (fst (xfer2 d data)).

(** ** The monad and the register access layer *)

Lemma io_only_refl : forall s, io_only s s.
Proof. unfold io_only; auto. Qed.

Lemma io_only_trans : forall s1 s2 s3,
  io_only s1 s2 -> io_only s2 s3 -> io_only s1 s3.
Proof.
  unfold io_only; intros s1 s2 s3 (A1 & A2 & A3 & A4) (B1 & B2 & B3 & B4).
  repeat split; congruence.
Qed.

Lemma runs_ret : forall A (a : A) (Q : A -> Prop), Q a -> runs (ret a) Q.
Proof.
  intros A a Q H s. exists a, s. split; [reflexivity | split; [apply io_only_refl | exact H]].
Qed.

Lemma runs_bind : forall A B (m : M A) (f : A -> M B) (P : A -> Prop) (Q : B -> Prop),
  runs m P -> (forall a, P a -> runs (f a) Q) -> runs (bind m f) Q.
Proof.
  intros A B m f P Q Hm Hf s.
  destruct (Hm s) as (a & s1 & E1 & I1 & Pa).
  destruct (Hf a Pa s1) as (b & s2 & E2 & I2 & Qb).
  exists b, s2. unfold bind. rewrite E1. split; [exact E2 | split; [ | exact Qb]].
  eapply io_only_trans; eassumption.
Qed.

Lemma runs_weaken : forall A (m : M A) (P Q : A -> Prop),
  runs m P -> (forall a, P a -> Q a) -> runs m Q.
Proof.
  intros A m P Q Hm HPQ s. destruct (Hm s) as (a & s1 & E1 & I1 & Pa).
  exists a, s1. auto.
Qed.

(** What a run that is known to return tells about its result. *)
Lemma runs_elim : forall A (m : M A) (Q : A -> Prop) s a s',
  runs m Q -> m s = (Ok a, s') -> io_only s s' /\ Q a.
Proof.
  intros A m Q s a s' Hm E. destruct (Hm s) as (a' & s1 & E1 & I1 & Qa).
  rewrite E in E1. inversion E1; subst. auto.
Qed.

Lemma bind_Ok : forall A B (m : M A) (f : A -> M B) s a s1,
  m s = (Ok a, s1) -> bind m f s = f a s1.
Proof. intros A B m f s a s1 E. unfold bind. rewrite E. reflexivity. Qed.

Lemma spi_transfer_eq : forall data s,
  exists s', spi_transfer data s = (Ok (fst (xfer2 (spi s) data)), s') /\
    io_only s s' /\
    spi_log s' = spi_log s ++ [(data, fst (xfer2 (spi s) data))].
Proof.
  intros data s. unfold spi_transfer.
  destruct (negb (pin_ce s =? 0)) eqn:Ece; simpl;
    destruct (xfer2 (spi s) data) as [r d] eqn:Ex; simpl; rewrite ?Ece;
    eexists; (split; [reflexivity | split; [unfold io_only; simpl; auto | reflexivity]]).
Qed.

Lemma spi_transfer_runs : forall data,
  runs (spi_transfer data)
       (fun r => length r = length data /\ Forall is_byte r).
Proof.
  intros data s. destruct (spi_transfer_eq data s) as (s' & E & I & _).
  exists (fst (xfer2 (spi s) data)), s'. split; [exact E | split; [exact I | apply xfer2_wf]].
Qed.

Lemma dev_write_eq : forall address value s,
  exists r s', dev_write address value s = (Ok tt, s') /\ io_only s s' /\
    spi_log s' = spi_log s ++ [([write_frame address; value], r)].
Proof.
  intros address value s. unfold dev_write.
  destruct (spi_transfer_eq [Z.land (Z.shiftl address 1) 0x7E; value] s) as (s' & E & I & L).
  eexists; exists s'. rewrite (bind_Ok _ _ _ _ _ _ _ E). split; [reflexivity | split; [exact I | exact L]].
Qed.

Lemma dev_read_eq : forall address s,
  exists x v s', dev_read address s = (Ok v, s') /\ io_only s s' /\ is_byte v /\
    spi_log s' = spi_log s ++ [([read_frame address; 0], [x; v])].
Proof.
  intros address s. unfold dev_read.
  destruct (spi_transfer_eq [Z.lor (Z.land (Z.shiftl address 1) 0x7E) 0x80; 0] s)
    as (s' & E & I & L).
  rewrite (bind_Ok _ _ _ _ _ _ _ E).
  destruct (xfer2_wf (spi s) [Z.lor (Z.land (Z.shiftl address 1) 0x7E) 0x80; 0]) as [Hl Hb].
  destruct (fst (xfer2 (spi s) [Z.lor (Z.land (Z.shiftl address 1) 0x7E) 0x80; 0]))
    as [ | x [ | v [ | ? ?]]]; simpl in Hl; try discriminate.
  exists x, v, s'. split; [reflexivity | split; [exact I | split; [ | exact L]]].
  inversion Hb as [ | ? ? _ Hb']; inversion Hb'; assumption.
Qed.

Lemma dev_write_runs : forall address value,
  runs (dev_write address value) (fun _ => True).
Proof.
  intros address value s. destruct (dev_write_eq address value s) as (r & s' & E & I & _).
  exists tt, s'. auto.
Qed.

Lemma dev_read_runs : forall address, runs (dev_read address) is_byte.
Proof.
  intros address s. destruct (dev_read_eq address s) as (x & v & s' & E & I & B & _).
  exists v, s'. auto.
Qed.

Lemma set_bitmask_runs : forall address mask,
  runs (set_bitmask address mask) (fun _ => True).
Proof.
  intros. unfold set_bitmask. eapply runs_bind; [apply dev_read_runs | ].
  intros; apply dev_write_runs.
Qed.

Lemma clear_bitmask_runs : forall address mask,
  runs (clear_bitmask address mask) (fun _ => True).
Proof.
  intros. unfold clear_bitmask. eapply runs_bind; [apply dev_read_runs | ].
  intros; apply dev_write_runs.
Qed.

Lemma py_index_runs : forall l i v,
  nth_error l i = Some v -> runs (py_index l i) (fun x => x = v).
Proof. intros l i v H. unfold py_index. rewrite H. apply runs_ret. reflexivity. Qed.

Lemma write_fifo_runs : forall data, runs (write_fifo data) (fun _ => True).
Proof.
  induction data as [ | b rest IH]; simpl.
  - apply runs_ret; exact I.
  - eapply runs_bind; [apply dev_write_runs | intros; exact IH].
Qed.

Lemma read_fifo_runs : forall n back_data,
  Forall is_byte back_data ->
  runs (read_fifo n back_data)
       (fun l => Forall is_byte l /\ length l = (length back_data + n)%nat).
Proof.
  induction n as [ | n IH]; intros back_data Hb; simpl.
  - apply runs_ret. split; [exact Hb | lia].
  - eapply runs_bind; [apply dev_read_runs | ].
    intros v Hv. eapply runs_weaken.
    + apply IH. apply Forall_app. split; [exact Hb | constructor; [exact Hv | constructor]].
    + intros l [Hl Hlen]. split; [exact Hl | ]. rewrite Hlen, length_app. simpl. lia.
Qed.

Lemma disable_interrupts_runs : runs disable_interrupts (fun _ => True).
Proof.
  unfold disable_interrupts.
  repeat (eapply runs_bind; [apply dev_write_runs | intros]).
  apply dev_write_runs.
Qed.

(** ** The completion loops *)

(** The [break] condition of line 243 as a condition on bits: the loop is
    left when the counter reaches 0 or a wait-for bit is set.  The operand
    [~(n & 0x01)] is -1 or -2, never 0, so that the conjunction evaluates to
    [~(n & irq_wait)] and bit 0x01 of [n] has no influence. *)
Lemma poll_break_eq : forall i n irq_wait,
  0 <= irq_wait ->
  poll_break i n irq_wait = (i =? 0) || negb (Z.land n irq_wait =? 0).
Proof.
  intros i n w Hw. unfold poll_break, py_and, py_invert, Z_of_bool.
  destruct (i =? 0) eqn:Ei; simpl; [reflexivity | ].
  assert (H1 : truthy (Z.lnot (Z.land n 1)) = true).
  { unfold truthy. apply negb_true_iff, Z.eqb_neq.
    assert (0 <= Z.land n 1) by (apply Z.land_nonneg; right; lia).
    unfold Z.lnot. lia. }
  rewrite H1, Z.lnot_involutive. reflexivity.
Qed.

Lemma crc_break_eq : forall i n,
  crc_break i n = (i =? 0) || negb (Z.land n 0x04 =? 0).
Proof.
  intros i n. unfold crc_break, truthy.
  destruct (i =? 0); destruct (Z.land n 4 =? 0); reflexivity.
Qed.

Lemma irq_masks_nonneg : forall command, 0 <= snd (irq_masks command).
Proof.
  intros command. unfold irq_masks.
  destruct (command =? mode_auth); destruct (command =? mode_transrec); simpl; lia.
Qed.

(** With at least [i] units of fuel the loop of [card_write] returns after
    at most [i] polls, all of them reads of the interrupt-request register;
    it returns a non-zero counter only after polling a wait-for bit. *)
Lemma poll_irq_log : forall fuel irq_wait i s,
  0 <= irq_wait -> 0 < i <= Z.of_nat fuel ->
  exists n i' s' polls,
    poll_irq fuel irq_wait i s = (Ok (n, i'), s') /\ io_only s s' /\
    spi_log s' = spi_log s ++ polls /\
    Z.of_nat (length polls) = i - i' /\ 0 <= i' < i /\
    Forall (fun e => fst e = [read_frame addr_ComIrqReq; 0]) polls /\
    (exists x, last polls ([], []) = ([read_frame addr_ComIrqReq; 0], [x; n])) /\
    (i' <> 0 -> Z.land n irq_wait <> 0) /\
    Forall (fun e => Z.land (nth 1 (snd e) 0) irq_wait = 0) (removelast polls).
Proof.
  induction fuel as [ | fuel IH]; intros w i s Hw Hi; [simpl in Hi; lia | ].
  simpl poll_irq.
  destruct (dev_read_eq addr_ComIrqReq s) as (x & n & s1 & E1 & I1 & Bn & L1).
  rewrite (bind_Ok _ _ _ _ _ _ _ E1).
  rewrite poll_break_eq by exact Hw.
  destruct (i - 1 =? 0) eqn:Ei; simpl.
  - apply Z.eqb_eq in Ei.
    exists n, (i - 1), s1, [([read_frame addr_ComIrqReq; 0], [x; n])].
    split; [reflexivity | ]. split; [exact I1 | ]. split; [exact L1 | ].
    split; [simpl; lia | ]. split; [lia | ].
    split; [constructor; [reflexivity | constructor] | ].
    split; [exists x; reflexivity | ]. split; [intros; lia | constructor].
  - apply Z.eqb_neq in Ei.
    destruct (Z.land n w =? 0) eqn:Ew; simpl.
    + apply Z.eqb_eq in Ew.
      destruct (IH w (i - 1) s1 Hw) as (n' & i' & s2 & polls & E2 & I2 & L2 & Len & Hi' & Hp & Hlast & Hbit & Hnone);
        [lia | ].
      exists n', i', s2, (([read_frame addr_ComIrqReq; 0], [x; n]) :: polls).
      split; [exact E2 | ]. split; [eapply io_only_trans; eassumption | ].
      split; [rewrite L2, L1, <- app_assoc; reflexivity | ].
      split; [simpl length; lia | ]. split; [lia | ].
      split; [constructor; [reflexivity | exact Hp] | ].
      assert (Hne : polls <> []) by (intro Hnil; subst polls; simpl in Len; lia).
      split; [ | split; [exact Hbit | ]].
      * destruct Hlast as [x' Hlast]. exists x'.
        destruct polls; [congruence | exact Hlast].
      * destruct polls; [congruence | ].
        change (Forall (fun e => Z.land (nth 1 (snd e) 0) w = 0)
                  (([read_frame addr_ComIrqReq; 0], [x; n]) :: removelast (e :: polls))).
        constructor; [exact Ew | exact Hnone].
    + apply Z.eqb_neq in Ew.
      exists n, (i - 1), s1, [([read_frame addr_ComIrqReq; 0], [x; n])].
      split; [reflexivity | ]. split; [exact I1 | ]. split; [exact L1 | ].
      split; [simpl; lia | ]. split; [lia | ].
      split; [constructor; [reflexivity | constructor] | ].
      split; [exists x; reflexivity | ]. split; [intros _; exact Ew | constructor].
Qed.

Lemma poll_irq_runs : forall fuel irq_wait i,
  0 <= irq_wait -> 0 < i <= Z.of_nat fuel ->
  runs (poll_irq fuel irq_wait i) (fun p => 0 <= snd p < i).
Proof.
  intros fuel w i Hw Hi s.
  destruct (poll_irq_log fuel w i s Hw Hi) as (n & i' & s' & polls & E & I & _ & _ & B & _).
  exists (n, i'), s'. auto.
Qed.

(** The CRC loop returns after at most [i] polls of the divider interrupt
    register. *)
Lemma poll_crc_log : forall fuel i s,
  0 < i <= Z.of_nat fuel ->
  exists n i' s' polls,
    poll_crc fuel i s = (Ok (n, i'), s') /\ io_only s s' /\
    spi_log s' = spi_log s ++ polls /\
    Z.of_nat (length polls) = i - i' /\ 0 <= i' < i /\
    Forall (fun e => fst e = [read_frame addr_DivIrqReg; 0]) polls.
Proof.
  induction fuel as [ | fuel IH]; intros i s Hi; [simpl in Hi; lia | ].
  simpl poll_crc.
  destruct (dev_read_eq addr_DivIrqReg s) as (x & n & s1 & E1 & I1 & Bn & L1).
  rewrite (bind_Ok _ _ _ _ _ _ _ E1).
  rewrite crc_break_eq.
  destruct (i - 1 =? 0) eqn:Ei; simpl;
    [ | destruct (Z.land n 4 =? 0) eqn:Ew; simpl ].
  - apply Z.eqb_eq in Ei.
    exists n, (i - 1), s1, [([read_frame addr_DivIrqReg; 0], [x; n])].
    split; [reflexivity | ]. split; [exact I1 | ]. split; [exact L1 | ].
    split; [simpl; lia | ]. split; [lia | ].
    constructor; [reflexivity | constructor].
  - apply Z.eqb_neq in Ei.
    destruct (IH (i - 1) s1) as (n' & i' & s2 & polls & E2 & I2 & L2 & Len & Hi' & Hp);
      [lia | ].
    exists n', i', s2, (([read_frame addr_DivIrqReg; 0], [x; n]) :: polls).
    split; [exact E2 | ]. split; [eapply io_only_trans; eassumption | ].
    split; [rewrite L2, L1, <- app_assoc; reflexivity | ].
    split; [simpl length; lia | ]. split; [lia | ].
    constructor; [reflexivity | exact Hp].
  - apply Z.eqb_neq in Ei.
    exists n, (i - 1), s1, [([read_frame addr_DivIrqReg; 0], [x; n])].
    split; [reflexivity | ]. split; [exact I1 | ]. split; [exact L1 | ].
    split; [simpl; lia | ]. split; [lia | ].
    constructor; [reflexivity | constructor].
Qed.

Lemma poll_crc_runs : forall fuel i,
  0 < i <= Z.of_nat fuel -> runs (poll_crc fuel i) (fun _ => True).
Proof.
  intros fuel i Hi s.
  destruct (poll_crc_log fuel i s Hi) as (n & i' & s' & polls & E & I & _).
  exists (n, i'), s'. auto.
Qed.

(** ** The command executor and the CRC engine always return *)

Lemma card_write_issue_runs : forall command data,
  runs (card_write_issue command data) (fun p => 0 <= snd p < 2000).
Proof.
  intros command data. unfold card_write_issue.
  pose proof (irq_masks_nonneg command) as Hw.
  destruct (irq_masks command) as [irq irq_wait]. simpl in Hw.
  eapply runs_bind; [apply dev_write_runs | intros].
  eapply runs_bind; [apply clear_bitmask_runs | intros].
  eapply runs_bind; [apply set_bitmask_runs | intros].
  eapply runs_bind; [apply dev_write_runs | intros].
  eapply runs_bind; [apply write_fifo_runs | intros].
  eapply runs_bind; [apply dev_write_runs | intros].
  eapply runs_bind with (P := fun _ => True).
  - destruct (command =? mode_transrec); [apply set_bitmask_runs | apply runs_ret; exact I].
  - intros. apply poll_irq_runs; [exact Hw | simpl; lia].
Qed.

(** A response of 4 bits is a response of one byte. *)
Lemma bit_length_4 : forall n c,
  (if negb (Z.land c 0x07 =? 0) then (n - 1) * 8 + Z.land c 0x07 else n * 8) = 4 ->
  n = 1.
Proof.
  intros n c H.
  assert (0 <= Z.land c 7 < 8).
  { change 7 with (Z.ones 3). rewrite Z.land_ones by lia.
    apply Z.mod_pos_bound. reflexivity. }
  destruct (Z.land c 7 =? 0); simpl in H; lia.
Qed.

Lemma card_write_collect_runs : forall command n i,
  runs (card_write_collect command n i)
       (fun r => Forall is_byte (snd (fst r)) /\
                 (snd r = 4 -> length (snd (fst r)) = 1%nat)).
Proof.
  intros command n i. unfold card_write_collect.
  destruct (irq_masks command) as [irq irq_wait].
  eapply runs_bind; [apply clear_bitmask_runs | intros _ _].
  assert (Hnil : forall e : bool,
             runs (ret (e, @nil Z, 0))
                  (fun r => Forall is_byte (snd (fst r)) /\
                            (snd r = 4 -> length (snd (fst r)) = 1%nat))).
  { intros e. apply runs_ret. simpl. split; [constructor | intros; lia]. }
  destruct (negb (i =? 0)); [ | apply Hnil].
  eapply runs_bind; [apply dev_read_runs | intros e _].
  destruct (Z.land e 27 =? 0); [ | apply Hnil].
  destruct (command =? mode_transrec); [ | apply Hnil].
  eapply runs_bind; [apply dev_read_runs | intros lvl _].
  eapply runs_bind; [apply dev_read_runs | intros c _].
  eapply runs_bind; [apply read_fifo_runs; constructor | ].
  intros bd [Hb Hlen]. apply runs_ret. simpl. split; [exact Hb | ].
  intros H4. apply bit_length_4 in H4. subst lvl. rewrite Hlen. reflexivity.
Qed.

Lemma card_write_runs : forall command data,
  runs (card_write command data)
       (fun r => Forall is_byte (snd (fst r)) /\
                 (snd r = 4 -> length (snd (fst r)) = 1%nat)).
Proof.
  intros command data. unfold card_write.
  eapply runs_bind; [apply card_write_issue_runs | ].
  intros [n i] _. apply card_write_collect_runs.
Qed.

Lemma calculate_crc_runs : forall data,
  runs (calculate_crc data) (fun crc => exists lo hi, crc = [lo; hi]).
Proof.
  intros data. unfold calculate_crc.
  eapply runs_bind; [apply clear_bitmask_runs | intros].
  eapply runs_bind; [apply set_bitmask_runs | intros].
  eapply runs_bind; [apply write_fifo_runs | intros].
  eapply runs_bind; [apply dev_write_runs | intros].
  eapply runs_bind; [apply poll_crc_runs; simpl; lia | intros].
  eapply runs_bind; [apply dev_read_runs | intros lo _].
  eapply runs_bind; [apply dev_read_runs | intros hi _].
  apply runs_ret. exists lo, hi. reflexivity.
Qed.

Lemma write_phase_runs : forall buf,
  runs (write_phase buf)
       (fun r => Forall is_byte (snd (fst r)) /\
                 (snd r = 4 -> length (snd (fst r)) = 1%nat)).
Proof.
  intros buf. unfold write_phase.
  eapply runs_bind; [apply calculate_crc_runs | ].
  intros crc (lo & hi & ->).
  eapply runs_bind; [apply py_index_runs; reflexivity | intros c0 _].
  eapply runs_bind; [apply py_index_runs; reflexivity | intros c1 _].
  apply card_write_runs.
Qed.

(** A protocol procedure whose body runs returns, and adds itself to the
    call trace. *)
Lemma procedure_runs : forall A (p : proc) (m : M A) (Q : A -> Prop) s,
  runs m Q ->
  exists a s', procedure p m s = (Ok a, s') /\ Q a /\
    calls s' = calls s ++ [p] /\ authed s' = authed s /\
    antenna_gain s' = antenna_gain s.
Proof.
  intros A p m Q s Hm. unfold procedure.
  destruct (Hm (enter p s)) as (a & s' & E & (_ & I2 & I3 & I4) & Qa).
  exists a, s'. simpl in *. auto.
Qed.

(** ** Stepping through a computation *)

Lemma bind_inv : forall A B (m : M A) (f : A -> M B) s b s',
  bind m f s = (Ok b, s') ->
  exists a s1, m s = (Ok a, s1) /\ f a s1 = (Ok b, s').
Proof.
  intros A B m f s b s'. unfold bind.
  destruct (m s) as [[a | e] s1]; intros H; [eauto | discriminate].
Qed.

Lemma runs_step : forall A B (m : M A) (f : A -> M B) (Q : A -> Prop) s,
  runs m Q ->
  exists a s1, bind m f s = f a s1 /\ io_only s s1 /\ Q a.
Proof.
  intros A B m f Q s Hm. destruct (Hm s) as (a & s1 & E & I & Qa).
  exists a, s1. rewrite (bind_Ok _ _ _ _ _ _ _ E). auto.
Qed.

Lemma nth_error_skipn_cons : forall (l : list Z) i v,
  nth_error l i = Some v -> skipn i l = v :: skipn (S i) l.
Proof.
  induction l as [ | x l IH]; intros [ | i] v H; simpl in *; try discriminate.
  - inversion H; reflexivity.
  - apply IH; exact H.
Qed.

Lemma append_items_eq : forall count buf src start s,
  (start + count <= length src)%nat ->
  append_items buf src start count s =
    (Ok (buf ++ firstn count (skipn start src)), s).
Proof.
  induction count as [ | count IH]; intros buf src start s Hlen; simpl append_items.
  - unfold ret. simpl. rewrite app_nil_r. reflexivity.
  - destruct (nth_error src start) as [v | ] eqn:Ev;
      [ | apply nth_error_None in Ev; lia].
    unfold py_index. rewrite Ev. unfold bind at 1, ret at 1.
    rewrite IH by lia. rewrite (nth_error_skipn_cons _ _ _ Ev). simpl.
    rewrite <- app_assoc. reflexivity.
Qed.

Lemma append_items_runs : forall count buf src start,
  (start + count <= length src)%nat ->
  runs (append_items buf src start count)
       (fun b => b = buf ++ firstn count (skipn start src)).
Proof.
  intros count buf src start Hlen s. eexists; exists s.
  split; [apply append_items_eq; exact Hlen | ].
  split; [apply io_only_refl | reflexivity].
Qed.

Lemma int_from_bytes_big_eq : forall l s,
  Forall is_byte l -> int_from_bytes_big l s = (Ok (big_endian l), s).
Proof.
  intros l s H. unfold int_from_bytes_big.
  assert (E : forallb is_byteb l = true).
  { apply forallb_forall. rewrite Forall_forall in H. intros x Hx.
    specialize (H x Hx). unfold is_byte in H. unfold is_byteb.
    apply andb_true_iff. split; [apply Z.leb_le | apply Z.ltb_lt]; lia. }
  rewrite E. reflexivity.
Qed.

(** ** Antenna gain *)

(** C6: for 0 <= gain <= 7, [set_antenna_gain] stores the gain and makes
    exactly one bus exchange, the write of [gain << 4] to the RF
    configuration register; for any other gain it raises [ValueError] and
    leaves the session, transport included, as it was. *)
Theorem set_antenna_gain_range : forall gain s,
  (0 <= gain <= 7 ->
   exists r s', set_antenna_gain gain s = (Ok tt, s') /\
     antenna_gain s' = gain /\
     spi_log s' =
       spi_log s ++ [([write_frame addr_RFCfgReg; Z.shiftl gain 4], r)]) /\
  (~ 0 <= gain <= 7 ->
   set_antenna_gain gain s = (Raise ValueError, s)).
Proof.
  intros gain s. unfold set_antenna_gain. split; intros H.
  - assert (E : (0 <=? gain) && (gain <=? 7) = true)
      by (apply andb_true_iff; split; apply Z.leb_le; lia).
    rewrite E. unfold bind, modify.
    destruct (dev_write_eq addr_RFCfgReg (Z.shiftl (antenna_gain (set_gain gain s)) 4)
                (set_gain gain s)) as (r & s' & E' & (_ & Ig & _) & L).
    exists r, s'. split; [exact E' | split; [exact Ig | exact L]].
  - assert (E : (0 <=? gain) && (gain <=? 7) = false).
    { apply andb_false_iff.
      destruct (Z.leb_spec 0 gain); [right | left; reflexivity].
      apply Z.leb_gt. lia. }
    rewrite E. reflexivity.
Qed.

(** ** Anti-collision *)

Lemma anticoll_check_eq : forall back_data s,
  exists error, anticoll_check false back_data s = (Ok error, s) /\
    (length back_data <> 5%nat -> error = true) /\
    (forall b0 b1 b2 b3 b4, back_data = [b0; b1; b2; b3; b4] ->
       (error = true <-> b4 <> Z.lxor (Z.lxor (Z.lxor b0 b1) b2) b3)).
Proof.
  intros bd s. unfold anticoll_check. simpl negb. cbv iota.
  destruct (length bd =? 5)%nat eqn:El.
  - apply Nat.eqb_eq in El.
    destruct bd as [ | b0 [ | b1 [ | b2 [ | b3 [ | b4 [ | ? ?]]]]]]; try discriminate.
    unfold py_index, bind, ret; simpl.
    destruct (Z.lxor (Z.lxor (Z.lxor b0 b1) b2) b3 =? b4) eqn:Ex; simpl.
    + apply Z.eqb_eq in Ex. exists false. split; [reflexivity | ].
      split; [intros H; exfalso; apply H; reflexivity | ].
      intros ? ? ? ? ? H; inversion H; subst. split; [discriminate | congruence].
    + apply Z.eqb_neq in Ex. exists true. split; [reflexivity | ].
      split; [reflexivity | ].
      intros ? ? ? ? ? H; inversion H; subst. split; [congruence | reflexivity].
  - apply Nat.eqb_neq in El. exists true. split; [reflexivity | ].
    split; [reflexivity | ].
    intros ? ? ? ? ? H; subst bd. exfalso; apply El; reflexivity.
Qed.

Lemma anticoll_stage_checksum : forall (p : proc) code s bd bl s',
  procedure p (dev_write addr_BitFramingReg 0x00 ;;
               card_write mode_transrec [code; 0x20]) s
    = (Ok (false, bd, bl), s') ->
  exists error,
    procedure p (dev_write addr_BitFramingReg 0x00 ;;
                 '(error, back_data, back_bits) <-
                   card_write mode_transrec [code; 0x20] ;;
                 error <- anticoll_check error back_data ;;
                 ret (error, back_data)) s = (Ok (error, bd), s') /\
    (length bd <> 5%nat -> error = true) /\
    (forall b0 b1 b2 b3 b4, bd = [b0; b1; b2; b3; b4] ->
       (error = true <-> b4 <> Z.lxor (Z.lxor (Z.lxor b0 b1) b2) b3)).
Proof.
  intros p code s bd bl s' H. unfold procedure in *.
  apply bind_inv in H. destruct H as ([] & s1 & E1 & E2).
  destruct (anticoll_check_eq bd s') as (error & Ec & H5 & Hx).
  exists error. split; [ | split; assumption].
  rewrite (bind_Ok _ _ _ _ _ _ _ E1), (bind_Ok _ _ _ _ _ _ _ E2).
  rewrite (bind_Ok _ _ _ _ _ _ _ Ec). reflexivity.
Qed.

(** C5: when the transceive issued by [anticoll] (or [anticoll2]) reports
    no error, the call reports an error if the response is not exactly 5
    bytes, and for a 5-byte response it reports an error if and only if the
    5th byte differs from the XOR of the first 4. *)
Theorem anticoll_checksum : forall s bd bl s',
  (procedure CAnticoll (dev_write addr_BitFramingReg 0x00 ;;
                        card_write mode_transrec [act_anticl; 0x20]) s
     = (Ok (false, bd, bl), s') ->
   exists error, anticoll s = (Ok (error, bd), s') /\
     (length bd <> 5%nat -> error = true) /\
     (forall b0 b1 b2 b3 b4, bd = [b0; b1; b2; b3; b4] ->
        (error = true <-> b4 <> Z.lxor (Z.lxor (Z.lxor b0 b1) b2) b3))) /\
  (procedure CAnticoll2 (dev_write addr_BitFramingReg 0x00 ;;
                         card_write mode_transrec [act_anticl2; 0x20]) s
     = (Ok (false, bd, bl), s') ->
   exists error, anticoll2 s = (Ok (error, bd), s') /\
     (length bd <> 5%nat -> error = true) /\
     (forall b0 b1 b2 b3 b4, bd = [b0; b1; b2; b3; b4] ->
        (error = true <-> b4 <> Z.lxor (Z.lxor (Z.lxor b0 b1) b2) b3))).
Proof.
  intros s bd bl s'. split; intros H.
  - exact (anticoll_stage_checksum CAnticoll act_anticl s bd bl s' H).
  - exact (anticoll_stage_checksum CAnticoll2 act_anticl2 s bd bl s' H).
Qed.

(** ** Protocol procedures return *)

Lemma procedure_elim : forall A (p : proc) (m : M A) (Q : A -> Prop) s a s',
  runs m Q -> procedure p m s = (Ok a, s') ->
  Q a /\ calls s' = calls s ++ [p] /\ authed s' = authed s.
Proof.
  intros A p m Q s a s' Hm E.
  destruct (procedure_runs A p m Q s Hm) as (a' & s1 & E1 & Qa & Hc & Ha & _).
  rewrite E in E1. inversion E1; subst. auto.
Qed.

Lemma anticoll_check_runs : forall error back_data,
  runs (anticoll_check error back_data)
       (fun e => e = false -> length back_data = 5%nat).
Proof.
  intros [ | ] bd s.
  - exists true, s. split; [reflexivity | split; [apply io_only_refl | discriminate]].
  - destruct (anticoll_check_eq bd s) as (e & E & H5 & _).
    exists e, s. split; [exact E | split; [apply io_only_refl | ]].
    intros ->. destruct (Nat.eq_dec (length bd) 5) as [ | Hn]; [assumption | ].
    specialize (H5 Hn). discriminate.
Qed.

Lemma anticoll_stage_runs : forall code,
  runs (dev_write addr_BitFramingReg 0x00 ;;
        '(error, back_data, back_bits) <- card_write mode_transrec [code; 0x20] ;;
        error <- anticoll_check error back_data ;;
        ret (error, back_data))
       (fun r => Forall is_byte (snd r) /\ (fst r = false -> length (snd r) = 5%nat)).
Proof.
  intros code.
  eapply runs_bind; [apply dev_write_runs | intros _ _].
  eapply runs_bind; [apply card_write_runs | ].
  intros [[e bd] bl] [Hb _]. simpl in Hb.
  eapply runs_bind; [apply anticoll_check_runs | ].
  intros e' He'. apply runs_ret. simpl. auto.
Qed.

Lemma request_runs : forall req_mode,
  runs (dev_write addr_BitFramingReg 0x07 ;;
        '(error, back_data, back_bits) <- card_write mode_transrec [req_mode] ;;
        if error || negb (back_bits =? 0x10) then ret (true, None)
        else ret (false, Some back_bits))
       (fun _ => True).
Proof.
  intros req_mode.
  eapply runs_bind; [apply dev_write_runs | intros _ _].
  eapply runs_bind; [apply card_write_runs | ].
  intros [[e bd] bl] _.
  destruct (e || negb (bl =? 16)); apply runs_ret; exact I.
Qed.

Lemma select_tag_runs : forall uid,
  (5 <= length uid)%nat ->
  runs (buf <- append_items [act_select; 0x70] uid 0 5 ;;
        crc <- calculate_crc buf ;;
        c0 <- py_index crc 0 ;;
        c1 <- py_index crc 1 ;;
        '(error, back_data, back_length) <-
          card_write mode_transrec (buf ++ [c0] ++ [c1]) ;;
        if negb error && (back_length =? 0x18) then ret false else ret true)
       (fun _ => True).
Proof.
  intros uid Hlen.
  eapply runs_bind; [apply append_items_runs; simpl; lia | intros buf _].
  eapply runs_bind; [apply calculate_crc_runs | intros crc (lo & hi & ->)].
  eapply runs_bind; [apply py_index_runs; reflexivity | intros c0 _].
  eapply runs_bind; [apply py_index_runs; reflexivity | intros c1 _].
  eapply runs_bind; [apply card_write_runs | ].
  intros [[e bd] bl] _.
  destruct (negb e && (bl =? 24)); apply runs_ret; exact I.
Qed.

Lemma anticoll_Ok : forall s uid s',
  anticoll s = (Ok (false, uid), s') ->
  length uid = 5%nat /\ Forall is_byte uid /\ calls s' = calls s ++ [CAnticoll].
Proof.
  intros s uid s' H. unfold anticoll in H.
  destruct (procedure_elim _ _ _ _ _ _ _ (anticoll_stage_runs act_anticl) H)
    as ((Hb & Hl) & Hc & _).
  simpl in *. auto.
Qed.

Lemma anticoll2_Ok : forall s uid s',
  anticoll2 s = (Ok (false, uid), s') ->
  length uid = 5%nat /\ Forall is_byte uid /\ calls s' = calls s ++ [CAnticoll2].
Proof.
  intros s uid s' H. unfold anticoll2 in H.
  destruct (procedure_elim _ _ _ _ _ _ _ (anticoll_stage_runs act_anticl2) H)
    as ((Hb & Hl) & Hc & _).
  simpl in *. auto.
Qed.

Lemma request_Ok : forall req_mode s r s',
  request req_mode s = (Ok r, s') -> calls s' = calls s ++ [CRequest].
Proof.
  intros req_mode s r s' H. unfold request in H.
  destruct (procedure_elim _ _ _ _ _ _ _ (request_runs req_mode) H) as (_ & Hc & _).
  exact Hc.
Qed.

Lemma select_tag_Ok : forall uid s r s',
  (5 <= length uid)%nat ->
  select_tag uid s = (Ok r, s') -> calls s' = calls s ++ [CSelectTag].
Proof.
  intros uid s r s' Hlen H. unfold select_tag in H.
  destruct (procedure_elim _ _ _ _ _ _ _ (select_tag_runs uid Hlen) H) as (_ & Hc & _).
  exact Hc.
Qed.

Lemma count_calls_app : forall p tr1 tr2,
  count_calls p (tr1 ++ tr2) = (count_calls p tr1 + count_calls p tr2)%nat.
Proof.
  intros p tr1 tr2. unfold count_calls. rewrite filter_app, length_app. reflexivity.
Qed.

(** ** Reading the UID *)

(** C8: when [request] and the first anti-collision round succeed and the
    first response byte is not the cascade tag 0x88, [read_id] returns the
    first 4 response bytes (their big-endian integer when [as_number]) in the
    state the first round left: nothing is sent after it, and neither
    [select_tag] nor [anticoll2] is called. *)
Theorem read_id_four_byte_uid : forall as_number s0 s1 s2 tag_type uid,
  request 0x26 s0 = (Ok (false, tag_type), s1) ->
  anticoll s1 = (Ok (false, uid), s2) ->
  hd_error uid <> Some 0x88 ->
  read_id as_number s0 =
    (Ok (if as_number then PyInt (big_endian (firstn 4 uid))
         else PyList (firstn 4 uid)), s2) /\
  length (firstn 4 uid) = 4%nat /\
  calls s2 = calls s0 ++ [CRequest; CAnticoll] /\
  count_calls CSelectTag (calls s2) = count_calls CSelectTag (calls s0) /\
  count_calls CAnticoll2 (calls s2) = count_calls CAnticoll2 (calls s0).
Proof.
  intros as_number s0 s1 s2 tag_type uid Hreq Hanti Htag.
  destruct (anticoll_Ok _ _ _ Hanti) as (Hlen & Hbytes & Hc2).
  pose proof (request_Ok _ _ _ _ Hreq) as Hc1.
  assert (Hcalls : calls s2 = calls s0 ++ [CRequest; CAnticoll])
    by (rewrite Hc2, Hc1, <- app_assoc; reflexivity).
  destruct uid as [ | u0 [ | u1 [ | u2 [ | u3 [ | u4 [ | ? ?]]]]]]; try discriminate.
  assert (E0 : (u0 =? 0x88) = false)
    by (apply Z.eqb_neq; intros ->; apply Htag; reflexivity).
  split; [ | split; [reflexivity | split; [exact Hcalls | ]]].
  - unfold read_id.
    rewrite (bind_Ok _ _ _ _ _ _ _ Hreq). cbv iota beta.
    rewrite (bind_Ok _ _ _ _ _ _ _ Hanti). cbv iota beta.
    unfold py_index at 1. simpl nth_error. cbv iota.
    unfold bind at 1, ret at 1. rewrite E0.
    change (negb false) with true. cbv iota.
    change (py_slice [u0; u1; u2; u3; u4] 0 4) with [u0; u1; u2; u3].
    destruct as_number; [ | reflexivity].
    assert (Hb4 : Forall is_byte [u0; u1; u2; u3]).
    { rewrite Forall_forall in *. intros x Hx. apply Hbytes.
      simpl in *. tauto. }
    rewrite (bind_Ok _ _ _ _ _ _ _ (int_from_bytes_big_eq [u0; u1; u2; u3] s2 Hb4)).
    reflexivity.
  - rewrite Hcalls, !count_calls_app.
    change (count_calls CSelectTag [CRequest; CAnticoll]) with 0%nat.
    change (count_calls CAnticoll2 [CRequest; CAnticoll]) with 0%nat.
    split; lia.
Qed.

(** C3 (amended): when the first anti-collision round returns the cascade
    tag 0x88 as first byte and [select_tag] and the second round succeed,
    [read_id] calls [select_tag] once and [anticoll2] once, and returns the 7
    bytes made of stage-1 bytes 1..3 followed by stage-2 bytes 0..3, that is
    each stage without its checksum byte and stage 1 without the cascade
    tag. *)
Theorem read_id_seven_byte_uid :
  forall as_number s0 s1 s2 s3 s4 tag_type uid uid2,
  request 0x26 s0 = (Ok (false, tag_type), s1) ->
  anticoll s1 = (Ok (false, uid), s2) ->
  hd_error uid = Some 0x88 ->
  select_tag uid s2 = (Ok false, s3) ->
  anticoll2 s3 = (Ok (false, uid2), s4) ->
  exists s5,
    read_id as_number s0 =
      (Ok (if as_number
           then PyInt (big_endian (py_slice uid 1 4 ++ py_slice uid2 0 4))
           else PyList (py_slice uid 1 4 ++ py_slice uid2 0 4)), s5) /\
    length (py_slice uid 1 4 ++ py_slice uid2 0 4) = 7%nat /\
    calls s5 = calls s0 ++ [CRequest; CAnticoll; CSelectTag; CAnticoll2] /\
    count_calls CSelectTag (calls s5) = S (count_calls CSelectTag (calls s0)) /\
    count_calls CAnticoll2 (calls s5) = S (count_calls CAnticoll2 (calls s0)).
Proof.
  intros as_number s0 s1 s2 s3 s4 tag_type uid uid2 Hreq Hanti Htag Hsel Hanti2.
  destruct (anticoll_Ok _ _ _ Hanti) as (Hlen & Hbytes & Hc2).
  destruct (anticoll2_Ok _ _ _ Hanti2) as (Hlen2 & Hbytes2 & Hc4).
  pose proof (request_Ok _ _ _ _ Hreq) as Hc1.
  assert (Hc3 : calls s3 = calls s2 ++ [CSelectTag])
    by (apply (select_tag_Ok uid s2 false s3); [lia | exact Hsel]).
  destruct (disable_interrupts_runs s4) as ([] & s5 & Hdis & (_ & _ & _ & Hc5) & _).
  assert (Hcalls : calls s5 = calls s0 ++ [CRequest; CAnticoll; CSelectTag; CAnticoll2])
    by (rewrite Hc5, Hc4, Hc3, Hc2, Hc1, <- !app_assoc; reflexivity).
  destruct uid as [ | u0 [ | u1 [ | u2 [ | u3 [ | u4 [ | ? ?]]]]]]; try discriminate.
  destruct uid2 as [ | v0 [ | v1 [ | v2 [ | v3 [ | v4 [ | ? ?]]]]]]; try discriminate.
  simpl in Htag. inversion Htag; subst u0.
  exists s5. split; [ | split; [reflexivity | split; [exact Hcalls | ]]].
  - unfold read_id.
    rewrite (bind_Ok _ _ _ _ _ _ _ Hreq). cbv iota beta.
    rewrite (bind_Ok _ _ _ _ _ _ _ Hanti). cbv iota beta.
    unfold py_index at 1. simpl nth_error. cbv iota.
    unfold bind at 1, ret at 1.
    change (negb (136 =? 136)) with false. cbv iota.
    rewrite (bind_Ok _ _ _ _ _ _ _ Hsel). cbv iota beta.
    rewrite (bind_Ok _ _ _ _ _ _ _ Hanti2). cbv iota beta.
    rewrite (bind_Ok _ _ _ _ _ _ _ Hdis).
    change (py_slice [136; u1; u2; u3; u4] 1 (-1)) with [u1; u2; u3].
    change (py_slice [v0; v1; v2; v3; v4] 0 (-1)) with [v0; v1; v2; v3].
    change (py_slice [136; u1; u2; u3; u4] 1 4) with [u1; u2; u3].
    change (py_slice [v0; v1; v2; v3; v4] 0 4) with [v0; v1; v2; v3].
    destruct as_number; [ | reflexivity].
    assert (Hb7 : Forall is_byte ([u1; u2; u3] ++ [v0; v1; v2; v3])).
    { rewrite Forall_forall in *. intros x Hx. simpl in Hx.
      destruct Hx as [Hx | [Hx | [Hx | Hx]]];
        [apply Hbytes | apply Hbytes | apply Hbytes | apply Hbytes2];
        simpl; tauto. }
    rewrite (bind_Ok _ _ _ _ _ _ _ (int_from_bytes_big_eq _ s5 Hb7)).
    reflexivity.
  - rewrite Hcalls, !count_calls_app.
    change (count_calls CSelectTag [CRequest; CAnticoll; CSelectTag; CAnticoll2])
      with 1%nat.
    change (count_calls CAnticoll2 [CRequest; CAnticoll; CSelectTag; CAnticoll2])
      with 1%nat.
    split; lia.
Qed.

(** ** Block write *)

Lemma ack_missing_eq : forall back_data back_length s,
  (back_length = 4 -> length back_data = 1%nat) ->
  exists nack, ack_missing back_data back_length s = (Ok nack, s) /\
    (nack = false <-> is_ack back_data back_length).
Proof.
  intros bd bl s Hlen. unfold ack_missing, is_ack.
  destruct (bl =? 4) eqn:E4; simpl negb; cbv iota.
  - apply Z.eqb_eq in E4. specialize (Hlen E4).
    destruct bd as [ | b [ | ? ?]]; try discriminate.
    exists (negb (Z.land b 15 =? 10)). split; [reflexivity | ].
    split.
    + intros Hn. apply negb_false_iff, Z.eqb_eq in Hn.
      split; [exact E4 | exists b; split; [reflexivity | exact Hn]].
    + intros (_ & b' & Hb' & Hn). simpl in Hb'. inversion Hb'; subst b'.
      apply negb_false_iff, Z.eqb_eq. exact Hn.
  - apply Z.eqb_neq in E4. exists true. split; [reflexivity | ].
    split; [discriminate | intros (H4 & _); contradiction].
Qed.

(** C4: if the first phase of [write] is not answered by an ACK (exactly 4
    bits, low nibble 0x0A in the first byte), [write] returns error true in
    the state the first phase left, so that nothing of the second phase is
    sent; if the first phase is acknowledged and the second is not, [write]
    returns error true as well. *)
Theorem write_ack_phases : forall block_address data s error bd bl s1,
  procedure CWrite (write_phase [act_write; block_address]) s
    = (Ok (error, bd, bl), s1) ->
  (~ is_ack bd bl ->
   write block_address data s = (Ok true, s1) /\
   spi_log (snd (write block_address data s)) = spi_log s1) /\
  (is_ack bd bl -> error = false -> (16 <= length data)%nat ->
   forall error2 bd2 bl2 s2,
     write_phase (firstn 16 data) s1 = (Ok (error2, bd2, bl2), s2) ->
     ~ is_ack bd2 bl2 ->
     write block_address data s = (Ok true, s2)).
Proof.
  intros block_address data s error bd bl s1 H1.
  unfold procedure in H1.
  destruct (runs_elim _ _ _ _ _ _ (write_phase_runs _) H1) as (_ & _ & Hlen).
  simpl in Hlen.
  destruct (ack_missing_eq bd bl s1 Hlen) as (nack & Eack & Hnack).
  assert (Hw : write block_address data s =
               (if negb (if nack then true else error)
                then buf_w <- append_items [] data 0 16 ;;
                     '(error, back_data, back_length) <- write_phase buf_w ;;
                     nack <- ack_missing back_data back_length ;;
                     ret (if nack then true else error)
                else ret (if nack then true else error)) s1).
  { unfold write, procedure. rewrite (bind_Ok _ _ _ _ _ _ _ H1). cbv iota beta.
    rewrite (bind_Ok _ _ _ _ _ _ _ Eack). reflexivity. }
  split.
  - intros Hno. destruct nack; [ | exfalso; apply Hno, Hnack; reflexivity].
    rewrite Hw. simpl. split; reflexivity.
  - intros Hack -> Hdata error2 bd2 bl2 s2 H2 Hno2.
    apply Hnack in Hack. subst nack. rewrite Hw.
    change (negb false) with true. cbv iota.
    rewrite (bind_Ok _ _ _ _ _ _ _ (append_items_eq 16 [] data 0 s1 Hdata)).
    simpl app. simpl skipn.
    rewrite (bind_Ok _ _ _ _ _ _ _ H2). cbv iota beta.
    destruct (runs_elim _ _ _ _ _ _ (write_phase_runs _) H2) as (_ & _ & Hlen2).
    simpl in Hlen2.
    destruct (ack_missing_eq bd2 bl2 s2 Hlen2) as (nack2 & Eack2 & Hnack2).
    rewrite (bind_Ok _ _ _ _ _ _ _ Eack2).
    destruct nack2; [reflexivity | exfalso; apply Hno2, Hnack2; reflexivity].
Qed.

(** ** Authentication *)

(** C7: [card_auth] returns error false only if the status register, read
    after the authenticate command as the last bus exchange of the call, has
    bit 0x08 set, and then the session is authenticated; [halt] and
    [stop_crypto] always return and leave the session not authenticated. *)
Theorem card_auth_authenticated :
  (forall auth_mode block_address key uid s s',
     card_auth auth_mode block_address key uid s = (Ok false, s') ->
     authed s' = true /\
     exists log x status,
       spi_log s' = log ++ [([read_frame addr_Status2Reg; 0], [x; status])] /\
       Z.land status 0x08 <> 0) /\
  (forall s, exists s', halt s = (Ok tt, s') /\ authed s' = false) /\
  (forall s, exists s', stop_crypto s = (Ok tt, s') /\ authed s' = false).
Proof.
  split; [ | split].
  - intros auth_mode block_address key uid s s' H.
    unfold card_auth, procedure in H.
    apply bind_inv in H. destruct H as (buf & s1 & _ & H).
    apply bind_inv in H. destruct H as ([[e bd] bl] & s2 & _ & H).
    destruct (dev_read_eq addr_Status2Reg s2) as (x & status & s3 & E3 & I3 & _ & L3).
    rewrite (bind_Ok _ _ _ _ _ _ _ E3) in H.
    destruct (Z.land status 8 =? 0) eqn:Eb; simpl in H.
    + unfold bind, ret in H. simpl in H. inversion H.
    + apply Z.eqb_neq in Eb. destruct e; unfold bind, ret, modify in H; simpl in H;
        inversion H; subst.
      split; [reflexivity | ].
      exists (spi_log s2), x, status. simpl. split; [exact L3 | exact Eb].
  - intros s. unfold halt, procedure.
    destruct (runs_step _ _ _ (fun _ => clear_bitmask addr_Status2Reg 128;;
                card_write mode_transrec [act_end; 0];;
                clear_bitmask addr_Status2Reg 8;; modify (set_authed false))
                _ (enter CHalt s) (calculate_crc_runs [act_end; 0]))
      as (a1 & s1 & E1 & _ & _).
    rewrite E1.
    destruct (runs_step _ _ _ (fun _ => card_write mode_transrec [act_end; 0];;
                clear_bitmask addr_Status2Reg 8;; modify (set_authed false))
                _ s1 (clear_bitmask_runs addr_Status2Reg 128))
      as (a2 & s2 & E2 & _ & _).
    rewrite E2.
    destruct (runs_step _ _ _ (fun _ => clear_bitmask addr_Status2Reg 8;;
                modify (set_authed false))
                _ s2 (card_write_runs mode_transrec [act_end; 0]))
      as (a3 & s3 & E3 & _ & _).
    rewrite E3.
    destruct (runs_step _ _ _ (fun _ => modify (set_authed false))
                _ s3 (clear_bitmask_runs addr_Status2Reg 8))
      as (a4 & s4 & E4 & _ & _).
    rewrite E4. exists (set_authed false s4). split; reflexivity.
  - intros s. unfold stop_crypto, procedure.
    destruct (runs_step _ _ _ (fun _ => modify (set_authed false))
                _ (enter CStopCrypto s) (clear_bitmask_runs addr_Status2Reg 8))
      as (a1 & s1 & E1 & _ & _).
    rewrite E1. exists (set_authed false s1). split; reflexivity.
Qed.

(** ** The CRC engine *)

Lemma set_bitmask_log : forall address mask s,
  exists s' l, set_bitmask address mask s = (Ok tt, s') /\
    spi_log s' = spi_log s ++ l /\ length l = 2%nat.
Proof.
  intros address mask s. unfold set_bitmask.
  destruct (dev_read_eq address s) as (x & v & s1 & E1 & _ & _ & L1).
  destruct (dev_write_eq address (Z.lor v mask) s1) as (r & s2 & E2 & _ & L2).
  exists s2. eexists. rewrite (bind_Ok _ _ _ _ _ _ _ E1).
  split; [exact E2 | ]. rewrite L2, L1, <- app_assoc. split; reflexivity.
Qed.

Lemma clear_bitmask_log : forall address mask s,
  exists s' l, clear_bitmask address mask s = (Ok tt, s') /\
    spi_log s' = spi_log s ++ l /\ length l = 2%nat.
Proof.
  intros address mask s. unfold clear_bitmask.
  destruct (dev_read_eq address s) as (x & v & s1 & E1 & _ & _ & L1).
  destruct (dev_write_eq address (Z.land v (py_invert mask)) s1)
    as (r & s2 & E2 & _ & L2).
  exists s2. eexists. rewrite (bind_Ok _ _ _ _ _ _ _ E1).
  split; [exact E2 | ]. rewrite L2, L1, <- app_assoc. split; reflexivity.
Qed.

Lemma write_fifo_log : forall data s,
  exists s' l, write_fifo data s = (Ok tt, s') /\
    spi_log s' = spi_log s ++ l /\ length l = length data.
Proof.
  induction data as [ | b rest IH]; intros s; simpl write_fifo.
  - exists s, []. rewrite app_nil_r. repeat split.
  - destruct (dev_write_eq addr_FIFODataReg b s) as (r & s1 & E1 & _ & L1).
    destruct (IH s1) as (s2 & l & E2 & L2 & N2).
    exists s2. eexists. rewrite (bind_Ok _ _ _ _ _ _ _ E1).
    split; [exact E2 | ]. rewrite L2, L1, <- app_assoc.
    split; [reflexivity | simpl; rewrite N2; reflexivity].
Qed.

(** C9: [calculate_crc] always returns a 2-byte list.  On the bus it makes
    its [len(data) + 5] set-up exchanges, then between 1 and 255 polls of
    the divider interrupt register, then, whatever the polls showed, exactly
    two reads: result register 0x22 (the low byte) and result register 0x21
    (the high byte); the value returned is the two bytes read, in that
    order. *)
Theorem calculate_crc_low_then_high : forall data s,
  exists lo hi s' setup polls x y,
    calculate_crc data s = (Ok [lo; hi], s') /\
    spi_log s' =
      spi_log s ++ setup ++ polls ++
        [([read_frame addr_CRCResultReg22; 0], [x; lo]);
         ([read_frame addr_CRCResultReg21; 0], [y; hi])] /\
    length setup = (length data + 5)%nat /\
    (1 <= length polls <= 255)%nat /\
    Forall (fun e => fst e = [read_frame addr_DivIrqReg; 0]) polls.
Proof.
  intros data s. unfold calculate_crc.
  destruct (clear_bitmask_log addr_DivIrqReg 4 s) as (s1 & l1 & E1 & L1 & N1).
  rewrite (bind_Ok _ _ _ _ _ _ _ E1).
  destruct (set_bitmask_log addr_FIFOLevelReg 128 s1) as (s2 & l2 & E2 & L2 & N2).
  rewrite (bind_Ok _ _ _ _ _ _ _ E2).
  destruct (write_fifo_log data s2) as (s3 & l3 & E3 & L3 & N3).
  rewrite (bind_Ok _ _ _ _ _ _ _ E3).
  destruct (dev_write_eq addr_CommandReg mode_crc s3) as (r4 & s4 & E4 & _ & L4).
  rewrite (bind_Ok _ _ _ _ _ _ _ E4).
  destruct (poll_crc_log 255 255 s4) as (n & i' & s5 & polls & E5 & _ & L5 & N5 & Hi & Hp);
    [simpl; lia | ].
  rewrite (bind_Ok _ _ _ _ _ _ _ E5).
  destruct (dev_read_eq addr_CRCResultReg22 s5) as (x & lo & s6 & E6 & _ & _ & L6).
  rewrite (bind_Ok _ _ _ _ _ _ _ E6).
  destruct (dev_read_eq addr_CRCResultReg21 s6) as (y & hi & s7 & E7 & _ & _ & L7).
  rewrite (bind_Ok _ _ _ _ _ _ _ E7).
  exists lo, hi, s7,
    (l1 ++ l2 ++ l3 ++ [([write_frame addr_CommandReg; mode_crc], r4)]), polls, x, y.
  split; [reflexivity | ].
  split; [rewrite L7, L6, L5, L4, L3, L2, L1; repeat rewrite <- app_assoc; reflexivity | ].
  split; [rewrite !length_app, N1, N2, N3; simpl; lia | ].
  split; [unfold exchange in *; lia | exact Hp].
Qed.

(** ** The command executor *)

(** C1 (as the code behaves): when the completion loop of [card_write]
    exhausts its budget, that is leaves with counter 0, [card_write]
    returns an empty response and bit length 0 with the error flag false,
    not true. *)
Theorem card_write_budget_exhausted : forall command data s n s1,
  card_write_issue command data s = (Ok (n, 0), s1) ->
  exists s2, card_write command data s = (Ok (false, [], 0), s2).
Proof.
  intros command data s n s1 H. unfold card_write.
  rewrite (bind_Ok _ _ _ _ _ _ _ H). cbv iota beta.
  unfold card_write_collect. destruct (irq_masks command) as [irq irq_wait].
  destruct (runs_step _ _ _ (fun _ => ret (false, @nil Z, 0)) _ s1
              (clear_bitmask_runs addr_BitFramingReg 128)) as ([] & s2 & E2 & _ & _).
  exists s2. simpl. exact E2.
Qed.

(** C10 (amended): when a transceive command completes (non-zero counter),
    the error register shows none of the bits 0x1B and the FIFO level
    register reads 0, [card_write] still drains one byte from the FIFO and
    returns a 1-element response; the bit length it reports is 0 when the
    low three bits of the control register read 0, and those bits minus 8
    otherwise. *)
Theorem card_write_empty_fifo : forall data s n i s1 s2 e s3 s4 c s5,
  card_write_issue mode_transrec data s = (Ok (n, i), s1) ->
  i <> 0 ->
  clear_bitmask addr_BitFramingReg 0x80 s1 = (Ok tt, s2) ->
  dev_read addr_ErrorReg s2 = (Ok e, s3) ->
  Z.land e 0x1B = 0 ->
  dev_read addr_FIFOLevelReg s3 = (Ok 0, s4) ->
  dev_read addr_ControlReg s4 = (Ok c, s5) ->
  exists b s6,
    dev_read addr_FIFODataReg s5 = (Ok b, s6) /\
    card_write mode_transrec data s =
      (Ok (truthy (Z.land (Z.land n 0x77) 0x01), [b],
           if Z.land c 0x07 =? 0 then 0 else Z.land c 0x07 - 8), s6).
Proof.
  intros data s n i s1 s2 e s3 s4 c s5 Hissue Hi Hclear Herr He Hlvl Hctl.
  destruct (dev_read_eq addr_FIFODataReg s5) as (x & b & s6 & E6 & _ & _ & _).
  exists b, s6. split; [exact E6 | ].
  unfold card_write. rewrite (bind_Ok _ _ _ _ _ _ _ Hissue). cbv iota beta.
  unfold card_write_collect.
  change (irq_masks mode_transrec) with (0x77, 0x30). cbv iota beta.
  rewrite (bind_Ok _ _ _ _ _ _ _ Hclear).
  apply Z.eqb_neq in Hi. rewrite Hi. change (negb false) with true. cbv iota.
  rewrite (bind_Ok _ _ _ _ _ _ _ Herr).
  apply Z.eqb_eq in He. rewrite He.
  change (mode_transrec =? mode_transrec) with true. cbv iota.
  rewrite (bind_Ok _ _ _ _ _ _ _ Hlvl), (bind_Ok _ _ _ _ _ _ _ Hctl).
  change (Z.to_nat (if (if 0 =? 0 then 1 else 0) >? length_ then length_
                    else if 0 =? 0 then 1 else 0)) with 1%nat.
  simpl read_fifo. unfold bind. rewrite E6. unfold ret.
  destruct (Z.land c 7 =? 0); destruct (truthy (Z.land (Z.land n 119) 1));
    cbv beta iota delta [negb]; try reflexivity;
    replace ((0 - 1) * 8 + Z.land c 7) with (Z.land c 7 - 8) by lia;
    reflexivity.
Qed.


(** ** Counting bus exchanges *)

Lemma traffic_ret : forall A (a : A), traffic 0 0 (ret a).
Proof.
  intros A a s. exists a, s, []. rewrite app_nil_r.
  split; [reflexivity | split; [apply io_only_refl | split; [reflexivity | simpl; lia]]].
Qed.

Lemma traffic_bind : forall A B (m : M A) (f : A -> M B) lo1 hi1 lo2 hi2,
  traffic lo1 hi1 m -> (forall a, traffic lo2 hi2 (f a)) ->
  traffic (lo1 + lo2) (hi1 + hi2) (bind m f).
Proof.
  intros A B m f lo1 hi1 lo2 hi2 Hm Hf s.
  destruct (Hm s) as (a & s1 & l1 & E1 & I1 & L1 & N1).
  destruct (Hf a s1) as (b & s2 & l2 & E2 & I2 & L2 & N2).
  exists b, s2, (l1 ++ l2). rewrite (bind_Ok _ _ _ _ _ _ _ E1).
  split; [exact E2 | ]. split; [eapply io_only_trans; eassumption | ].
  split; [rewrite L2, L1, app_assoc; reflexivity | rewrite length_app; lia].
Qed.

Lemma traffic_weaken : forall A (m : M A) lo hi lo' hi',
  traffic lo hi m -> (lo' <= lo)%nat -> (hi <= hi')%nat -> traffic lo' hi' m.
Proof.
  intros A m lo hi lo' hi' Hm Hlo Hhi s.
  destruct (Hm s) as (a & s1 & l & E & I & L & N).
  exists a, s1, l.
  split; [exact E | split; [exact I | split; [exact L | lia]]].
Qed.

Lemma traffic_step : forall A B (m : M A) (f : A -> M B) lo hi s,
  traffic lo hi m ->
  exists a s1 l, bind m f s = f a s1 /\ io_only s s1 /\
    spi_log s1 = spi_log s ++ l /\ (lo <= length l <= hi)%nat.
Proof.
  intros A B m f lo hi s Hm. destruct (Hm s) as (a & s1 & l & E & I & L & N).
  exists a, s1, l. rewrite (bind_Ok _ _ _ _ _ _ _ E). auto.
Qed.

Lemma dev_write_traffic : forall address value,
  traffic 1 1 (dev_write address value).
Proof.
  intros address value s.
  destruct (dev_write_eq address value s) as (r & s' & E & I & L).
  exists tt, s'. eexists. split; [exact E | split; [exact I | split; [exact L | simpl; lia]]].
Qed.

Lemma dev_read_traffic : forall address, traffic 1 1 (dev_read address).
Proof.
  intros address s.
  destruct (dev_read_eq address s) as (x & v & s' & E & I & _ & L).
  exists v, s'. eexists. split; [exact E | split; [exact I | split; [exact L | simpl; lia]]].
Qed.

Lemma set_bitmask_traffic : forall address mask,
  traffic 2 2 (set_bitmask address mask).
Proof.
  intros address mask. unfold set_bitmask.
  change 2%nat with (1 + 1)%nat.
  apply traffic_bind; [apply dev_read_traffic | intros; apply dev_write_traffic].
Qed.

Lemma clear_bitmask_traffic : forall address mask,
  traffic 2 2 (clear_bitmask address mask).
Proof.
  intros address mask. unfold clear_bitmask.
  change 2%nat with (1 + 1)%nat.
  apply traffic_bind; [apply dev_read_traffic | intros; apply dev_write_traffic].
Qed.

Lemma write_fifo_traffic : forall data,
  traffic (length data) (length data) (write_fifo data).
Proof.
  induction data as [ | b rest IH]; simpl write_fifo.
  - apply traffic_ret.
  - change (length (b :: rest)) with (1 + length rest)%nat.
    apply traffic_bind; [apply dev_write_traffic | intros; exact IH].
Qed.

Lemma read_fifo_traffic : forall n back_data,
  traffic n n (read_fifo n back_data).
Proof.
  induction n as [ | n IH]; intros back_data; simpl read_fifo.
  - apply traffic_ret.
  - change (S n) with (1 + n)%nat.
    apply traffic_bind; [apply dev_read_traffic | intros; apply IH].
Qed.

Lemma disable_interrupts_traffic : traffic 4 4 disable_interrupts.
Proof.
  unfold disable_interrupts. change 4%nat with (1 + (1 + (1 + 1)))%nat.
  repeat (apply traffic_bind; [apply dev_write_traffic | intros]).
  apply dev_write_traffic.
Qed.

Lemma poll_irq_traffic : forall fuel irq_wait i,
  0 <= irq_wait -> 0 < i <= Z.of_nat fuel ->
  traffic 1 (Z.to_nat i) (poll_irq fuel irq_wait i).
Proof.
  intros fuel w i Hw Hi s.
  destruct (poll_irq_log fuel w i s Hw Hi)
    as (n & i' & s' & polls & E & I & L & Len & B & _).
  exists (n, i'), s', polls.
  split; [exact E | split; [exact I | split; [exact L | unfold exchange in *; lia]]].
Qed.

Lemma card_write_issue_traffic : forall command data,
  traffic (length data + 8) (length data + 2009) (card_write_issue command data).
Proof.
  intros command data. unfold card_write_issue.
  pose proof (irq_masks_nonneg command) as Hw.
  destruct (irq_masks command) as [irq irq_wait]. simpl in Hw.
  eapply traffic_weaken.
  - apply traffic_bind; [apply dev_write_traffic | intros].
    apply traffic_bind; [apply clear_bitmask_traffic | intros].
    apply traffic_bind; [apply set_bitmask_traffic | intros].
    apply traffic_bind; [apply dev_write_traffic | intros].
    apply traffic_bind; [apply write_fifo_traffic | intros].
    apply traffic_bind; [apply dev_write_traffic | intros].
    apply traffic_bind with (lo1 := 0%nat) (hi1 := 2%nat).
    + destruct (command =? mode_transrec).
      * eapply traffic_weaken; [apply set_bitmask_traffic | lia | lia].
      * eapply traffic_weaken; [apply traffic_ret | lia | lia].
    + intros. apply poll_irq_traffic; [exact Hw | simpl; lia].
  - lia.
  - change (Z.to_nat 2000) with 2000%nat. lia.
Qed.

Lemma card_write_collect_traffic : forall command n i,
  traffic 2 21 (card_write_collect command n i).
Proof.
  intros command n i. unfold card_write_collect.
  destruct (irq_masks command) as [irq irq_wait].
  eapply traffic_weaken with (lo := (2 + 0)%nat) (hi := (2 + 19)%nat);
    [ | lia | lia].
  apply traffic_bind; [apply clear_bitmask_traffic | intros _].
  assert (Hnil : forall (e : bool) hi, traffic 0 hi (ret (e, @nil Z, 0)))
    by (intros e hi; eapply traffic_weaken; [apply traffic_ret | lia | lia]).
  destruct (negb (i =? 0)); [ | apply Hnil].
  eapply traffic_weaken with (lo := (1 + 0)%nat) (hi := (1 + 18)%nat);
    [ | lia | lia].
  apply traffic_bind; [apply dev_read_traffic | intros e].
  destruct (Z.land e 27 =? 0); [ | apply Hnil].
  destruct (command =? mode_transrec); [ | apply Hnil].
  eapply traffic_weaken with (lo := (1 + (1 + (0 + 0)))%nat)
                             (hi := (1 + (1 + (16 + 0)))%nat); [ | lia | lia].
  apply traffic_bind; [apply dev_read_traffic | intros lvl].
  apply traffic_bind; [apply dev_read_traffic | intros c].
  apply traffic_bind; [ | intros; apply traffic_ret].
  eapply traffic_weaken; [apply read_fifo_traffic | lia | ].
  unfold length_. destruct (lvl =? 0); destruct (_ >? 16) eqn:Eg; try lia.
Qed.

(** [card_write] always returns, after at least [len(data) + 10] and at
    most [len(data) + 2030] bus exchanges. *)
Theorem card_write_exchange_budget : forall command data s,
  exists r s' l,
    card_write command data s = (Ok r, s') /\
    spi_log s' = spi_log s ++ l /\
    (length data + 10 <= length l <= length data + 2030)%nat.
Proof.
  intros command data s.
  assert (H : traffic (length data + 8 + 2) (length data + 2009 + 21)
                      (card_write command data)).
  { unfold card_write.
    apply traffic_bind; [apply card_write_issue_traffic | ].
    intros [n i]. apply card_write_collect_traffic. }
  destruct (H s) as (r & s' & l & E & _ & L & N).
  exists r, s', l. split; [exact E | split; [exact L | lia]].
Qed.

(** ** Antenna and initialisation *)

Lemma set_antenna_on_log : forall s,
  exists x1 v1 x2 v2 r s',
    set_antenna true s = (Ok tt, s') /\ io_only s s' /\
    spi_log s' = spi_log s ++
      [([read_frame addr_TxControlReg; 0], [x1; v1]);
       ([read_frame addr_TxControlReg; 0], [x2; v2]);
       ([write_frame addr_TxControlReg; Z.lor v2 0x03], r)].
Proof.
  intros s. unfold set_antenna.
  change (Z.lor bit_Tx1RFEn bit_Tx2RFEn) with 3.
  destruct (dev_read_eq addr_TxControlReg s) as (x1 & v1 & s1 & E1 & I1 & _ & L1).
  rewrite (bind_Ok _ _ _ _ _ _ _ E1).
  assert (Ht : truthy (py_invert (Z.land v1 3)) = true).
  { unfold truthy, py_invert. apply negb_true_iff, Z.eqb_neq.
    assert (0 <= Z.land v1 3) by (apply Z.land_nonneg; right; lia).
    unfold Z.lnot. lia. }
  rewrite Ht. unfold set_bitmask.
  destruct (dev_read_eq addr_TxControlReg s1) as (x2 & v2 & s2 & E2 & I2 & _ & L2).
  rewrite (bind_Ok _ _ _ _ _ _ _ E2).
  destruct (dev_write_eq addr_TxControlReg (Z.lor v2 3) s2) as (r & s3 & E3 & I3 & L3).
  exists x1, v1, x2, v2, r, s3. split; [exact E3 | ].
  split; [eapply io_only_trans; [exact I1 | eapply io_only_trans; eassumption] | ].
  rewrite L3, L2, L1, <- !app_assoc. reflexivity.
Qed.

(** [set_antenna(True)] rewrites the transmitter control register whatever
    it reads: the test [~(current & val)] is never 0.  It makes three
    exchanges, two reads and the write of the second value read with both
    driver bits set.  [set_antenna(False)] reads once and writes the value
    read with both driver bits cleared. *)
Theorem set_antenna_exchanges : forall s,
  (exists x1 v1 x2 v2 r s',
     set_antenna true s = (Ok tt, s') /\
     spi_log s' = spi_log s ++
       [([read_frame addr_TxControlReg; 0], [x1; v1]);
        ([read_frame addr_TxControlReg; 0], [x2; v2]);
        ([write_frame addr_TxControlReg; Z.lor v2 0x03], r)] /\
     Z.land (Z.lor v2 0x03) 0x03 = 0x03) /\
  (exists x v r s',
     set_antenna false s = (Ok tt, s') /\
     spi_log s' = spi_log s ++
       [([read_frame addr_TxControlReg; 0], [x; v]);
        ([write_frame addr_TxControlReg; Z.land v (Z.lnot 0x03)], r)] /\
     Z.land (Z.land v (Z.lnot 0x03)) 0x03 = 0).
Proof.
  intros s. split.
  - destruct (set_antenna_on_log s) as (x1 & v1 & x2 & v2 & r & s' & E & _ & L).
    exists x1, v1, x2, v2, r, s'. split; [exact E | split; [exact L | ]].
    apply Z.bits_inj'. intros n Hn. rewrite Z.land_spec, Z.lor_spec.
    destruct (Z.testbit 3 n); [rewrite orb_true_r | rewrite andb_false_r]; reflexivity.
  - unfold set_antenna, clear_bitmask, py_invert.
    change (Z.lor bit_Tx1RFEn bit_Tx2RFEn) with 3.
    destruct (dev_read_eq addr_TxControlReg s) as (x & v & s1 & E1 & _ & _ & L1).
    rewrite (bind_Ok _ _ _ _ _ _ _ E1).
    destruct (dev_write_eq addr_TxControlReg (Z.land v (Z.lnot 3)) s1)
      as (r & s2 & E2 & _ & L2).
    exists x, v, r, s2. split; [exact E2 | ].
    split; [rewrite L2, L1, <- !app_assoc; reflexivity | ].
    rewrite <- Z.land_assoc. change (Z.land (Z.lnot 3) 3) with 0.
    apply Z.land_0_r.
Qed.

Lemma set_antenna_on_traffic : traffic 3 3 (set_antenna true).
Proof.
  intros s. destruct (set_antenna_on_log s) as (x1 & v1 & x2 & v2 & r & s' & E & I & L).
  exists tt, s'. eexists.
  split; [exact E | split; [exact I | split; [exact L | simpl; lia]]].
Qed.

Lemma set_antenna_gain_in_range : forall gain s,
  0 <= gain <= 7 ->
  exists r s', set_antenna_gain gain s = (Ok tt, s') /\
    antenna_gain s' = gain /\ authed s' = authed s /\
    spi_log s' = spi_log s ++ [([write_frame addr_RFCfgReg; Z.shiftl gain 4], r)].
Proof.
  intros gain s H. unfold set_antenna_gain.
  assert (E : (0 <=? gain) && (gain <=? 7) = true)
    by (apply andb_true_iff; split; apply Z.leb_le; lia).
  rewrite E. unfold bind, modify.
  destruct (dev_write_eq addr_RFCfgReg (Z.shiftl (antenna_gain (set_gain gain s)) 4)
              (set_gain gain s)) as (r & s' & E' & (_ & Ig & Ia & _) & L).
  exists r, s'. split; [exact E' | split; [exact Ig | split; [exact Ia | exact L]]].
Qed.

Lemma set_antenna_gain_out_of_range : forall gain s,
  ~ 0 <= gain <= 7 -> set_antenna_gain gain s = (Raise ValueError, s).
Proof.
  intros gain s H. unfold set_antenna_gain.
  assert (E : (0 <=? gain) && (gain <=? 7) = false).
  { apply andb_false_iff.
    destruct (Z.leb_spec 0 gain); [right | left; reflexivity].
    apply Z.leb_gt. lia. }
  rewrite E. reflexivity.
Qed.

(** [init] with a stored antenna gain in 0..7 makes exactly 15 bus
    exchanges and leaves the stored gain and the authenticated flag as they
    were: the reset it starts with does not clear the flag.  With a stored
    gain outside 0..7 it raises [ValueError] after 11 exchanges, the chip
    reset and configured but the antenna not switched on. *)
Theorem init_exchanges : forall s,
  (0 <= antenna_gain s <= 7 ->
   exists s' l,
     init s = (Ok tt, s') /\ spi_log s' = spi_log s ++ l /\
     length l = 15%nat /\
     authed s' = authed s /\ antenna_gain s' = antenna_gain s) /\
  (~ 0 <= antenna_gain s <= 7 ->
   exists s' l,
     init s = (Raise ValueError, s') /\ spi_log s' = spi_log s ++ l /\
     length l = 11%nat /\
     authed s' = authed s /\ antenna_gain s' = antenna_gain s).
Proof.
  intros s.
  assert (Hpre : forall k : unit -> M unit,
            exists s1 l, (reset ;;
                          disable_interrupts ;;
                          dev_write addr_TModeReg 0x8D ;;
                          dev_write addr_TPrescalerReg 0x3E ;;
                          dev_write addr_TReloadReg2D 30 ;;
                          dev_write addr_TReloadReg2C 0 ;;
                          dev_write addr_TxASKReg 0x40 ;;
                          bind (dev_write addr_ModeReg 0x3D) k) s = k tt s1 /\
              io_only s s1 /\ spi_log s1 = spi_log s ++ l /\ length l = 11%nat).
  { intros k. unfold reset.
    destruct (traffic_step _ _ (dev_write addr_CommandReg mode_reset)
                (fun _ => disable_interrupts ;;
                          dev_write addr_TModeReg 0x8D ;;
                          dev_write addr_TPrescalerReg 0x3E ;;
                          dev_write addr_TReloadReg2D 30 ;;
                          dev_write addr_TReloadReg2C 0 ;;
                          dev_write addr_TxASKReg 0x40 ;;
                          bind (dev_write addr_ModeReg 0x3D) k)
                _ _ s (dev_write_traffic _ _)) as ([] & s1 & l1 & E1 & I1 & L1 & N1).
    rewrite E1.
    destruct (traffic_step _ _ disable_interrupts
                (fun _ => dev_write addr_TModeReg 0x8D ;;
                          dev_write addr_TPrescalerReg 0x3E ;;
                          dev_write addr_TReloadReg2D 30 ;;
                          dev_write addr_TReloadReg2C 0 ;;
                          dev_write addr_TxASKReg 0x40 ;;
                          bind (dev_write addr_ModeReg 0x3D) k)
                _ _ s1 disable_interrupts_traffic) as ([] & s2 & l2 & E2 & I2 & L2 & N2).
    rewrite E2.
    destruct (traffic_step _ _ (dev_write addr_TModeReg 0x8D)
                (fun _ => dev_write addr_TPrescalerReg 0x3E ;;
                          dev_write addr_TReloadReg2D 30 ;;
                          dev_write addr_TReloadReg2C 0 ;;
                          dev_write addr_TxASKReg 0x40 ;;
                          bind (dev_write addr_ModeReg 0x3D) k)
                _ _ s2 (dev_write_traffic _ _)) as ([] & s3 & l3 & E3 & I3 & L3 & N3).
    rewrite E3.
    destruct (traffic_step _ _ (dev_write addr_TPrescalerReg 0x3E)
                (fun _ => dev_write addr_TReloadReg2D 30 ;;
                          dev_write addr_TReloadReg2C 0 ;;
                          dev_write addr_TxASKReg 0x40 ;;
                          bind (dev_write addr_ModeReg 0x3D) k)
                _ _ s3 (dev_write_traffic _ _)) as ([] & s4 & l4 & E4 & I4 & L4 & N4).
    rewrite E4.
    destruct (traffic_step _ _ (dev_write addr_TReloadReg2D 30)
                (fun _ => dev_write addr_TReloadReg2C 0 ;;
                          dev_write addr_TxASKReg 0x40 ;;
                          bind (dev_write addr_ModeReg 0x3D) k)
                _ _ s4 (dev_write_traffic _ _)) as ([] & s5 & l5 & E5 & I5 & L5 & N5).
    rewrite E5.
    destruct (traffic_step _ _ (dev_write addr_TReloadReg2C 0)
                (fun _ => dev_write addr_TxASKReg 0x40 ;;
                          bind (dev_write addr_ModeReg 0x3D) k)
                _ _ s5 (dev_write_traffic _ _)) as ([] & s6 & l6 & E6 & I6 & L6 & N6).
    rewrite E6.
    destruct (traffic_step _ _ (dev_write addr_TxASKReg 0x40)
                (fun _ => bind (dev_write addr_ModeReg 0x3D) k)
                _ _ s6 (dev_write_traffic _ _)) as ([] & s7 & l7 & E7 & I7 & L7 & N7).
    rewrite E7.
    destruct (traffic_step _ _ (dev_write addr_ModeReg 0x3D) k
                _ _ s7 (dev_write_traffic _ _)) as ([] & s8 & l8 & E8 & I8 & L8 & N8).
    rewrite E8.
    exists s8, (l1 ++ l2 ++ l3 ++ l4 ++ l5 ++ l6 ++ l7 ++ l8).
    split; [reflexivity | ].
    split; [repeat (eapply io_only_trans; [eassumption | ]); apply io_only_refl | ].
    split; [rewrite L8, L7, L6, L5, L4, L3, L2, L1, <- !app_assoc; reflexivity | ].
    rewrite !length_app. lia. }
  unfold init.
  destruct (Hpre (fun _ => (fun s0 => set_antenna_gain (antenna_gain s0) s0) ;;
                           set_antenna true))
    as (s1 & l & E & (_ & Ig & Ia & _) & L & N).
  rewrite E. clear E Hpre.
  split; intros Hg; unfold bind at 1; cbv beta.
  - destruct (set_antenna_gain_in_range (antenna_gain s1) s1)
      as (r & s2 & E2 & G2 & Ia2 & L2); [rewrite Ig; exact Hg | ].
    rewrite E2.
    destruct (set_antenna_on_traffic s2) as ([] & s3 & l3 & E3 & (_ & Ig3 & Ia3 & _) & L3 & N3).
    exists s3. eexists. split; [exact E3 | ].
    split; [rewrite L3, L2, L, <- !app_assoc; reflexivity | ].
    split; [rewrite !length_app; simpl; lia | ].
    split; congruence.
  - rewrite (set_antenna_gain_out_of_range (antenna_gain s1) s1)
      by (rewrite Ig; exact Hg).
    exists s1, l.
    split; [reflexivity | split; [exact L | split; [exact N | split; assumption]]].
Qed.

(** ** Shape of the responses *)

Lemma card_write_collect_bounds : forall command n i,
  runs (card_write_collect command n i)
       (fun r => Forall is_byte (snd (fst r)) /\
                 (length (snd (fst r)) <= 16)%nat /\
                 (command <> mode_transrec -> snd (fst r) = [] /\ snd r = 0)).
Proof.
  intros command n i. unfold card_write_collect.
  destruct (irq_masks command) as [irq irq_wait].
  eapply runs_bind; [apply clear_bitmask_runs | intros _ _].
  assert (Hnil : forall e : bool,
             runs (ret (e, @nil Z, 0))
                  (fun r => Forall is_byte (snd (fst r)) /\
                            (length (snd (fst r)) <= 16)%nat /\
                            (command <> mode_transrec -> snd (fst r) = [] /\ snd r = 0))).
  { intros e. apply runs_ret. simpl. split; [constructor | split; [lia | auto]]. }
  destruct (negb (i =? 0)); [ | apply Hnil].
  eapply runs_bind; [apply dev_read_runs | intros e _].
  destruct (Z.land e 27 =? 0); [ | apply Hnil].
  destruct (command =? mode_transrec) eqn:Ec; [ | apply Hnil].
  apply Z.eqb_eq in Ec.
  eapply runs_bind; [apply dev_read_runs | intros lvl _].
  eapply runs_bind; [apply dev_read_runs | intros c _].
  eapply runs_bind; [apply read_fifo_runs; constructor | ].
  intros bd [Hb Hlen]. apply runs_ret. simpl. split; [exact Hb | ].
  split; [ | intros Hne; contradiction].
  rewrite Hlen. simpl. unfold length_.
  destruct (lvl =? 0); destruct (_ >? 16) eqn:Eg; lia.
Qed.

(** [card_write] always returns; its response has at most 16 items, each
    a byte; for a command other than transceive the response is empty and
    the bit length 0. *)
Theorem card_write_response_bounds : forall command data s,
  exists error back_data back_length s',
    card_write command data s = (Ok (error, back_data, back_length), s') /\
    Forall is_byte back_data /\ (length back_data <= 16)%nat /\
    (command <> mode_transrec -> back_data = [] /\ back_length = 0).
Proof.
  intros command data s.
  assert (H : runs (card_write command data)
                (fun r => Forall is_byte (snd (fst r)) /\
                          (length (snd (fst r)) <= 16)%nat /\
                          (command <> mode_transrec -> snd (fst r) = [] /\ snd r = 0))).
  { unfold card_write. eapply runs_bind; [apply card_write_issue_runs | ].
    intros [n i] _. apply card_write_collect_bounds. }
  destruct (H s) as ([[e bd] bl] & s' & E & _ & Hb & Hl & Hc).
  exists e, bd, bl, s'. simpl in *. auto.
Qed.

Lemma write_phase_bounds : forall buf,
  runs (write_phase buf)
       (fun r => Forall is_byte (snd (fst r)) /\ (length (snd (fst r)) <= 16)%nat).
Proof.
  intros buf. unfold write_phase.
  eapply runs_bind; [apply calculate_crc_runs | ].
  intros crc (lo & hi & ->).
  eapply runs_bind; [apply py_index_runs; reflexivity | intros c0 _].
  eapply runs_bind; [apply py_index_runs; reflexivity | intros c1 _].
  unfold card_write. eapply runs_bind; [apply card_write_issue_runs | ].
  intros [n i] _. eapply runs_weaken; [apply card_write_collect_bounds | ].
  intros r (Hb & Hl & _). auto.
Qed.

(** [read] always returns; the data it returns are at most 16 bytes, and
    when it reports no error they are exactly 16 bytes.  It changes neither
    the authenticated flag nor the call trace. *)
Theorem read_sixteen_bytes : forall block_address s,
  exists error back_data s',
    read block_address s = (Ok (error, back_data), s') /\
    Forall is_byte back_data /\ (length back_data <= 16)%nat /\
    (error = false -> length back_data = 16%nat) /\
    authed s' = authed s /\ calls s' = calls s.
Proof.
  intros block_address s. unfold read.
  destruct (runs_step _ _ _
              (fun x => let '(error, back_data, _) := x in
                 ret (if negb (length back_data =? 16)%nat then true else error,
                      back_data))
              _ s (write_phase_bounds [act_read; block_address]))
    as ([[e bd] bl] & s1 & E & (_ & _ & Ia & Ic) & Hb & Hl).
  simpl in Hb, Hl. rewrite E.
  exists (if negb (length bd =? 16)%nat then true else e), bd, s1.
  split; [reflexivity | ]. split; [exact Hb | ]. split; [exact Hl | ].
  split; [ | split; assumption].
  destruct (length bd =? 16)%nat eqn:E16; simpl.
  - intros _. apply Nat.eqb_eq. exact E16.
  - discriminate.
Qed.

(** ** Teardown *)

Lemma stop_crypto_log : forall s,
  exists s' l, stop_crypto s = (Ok tt, s') /\ authed s' = false /\
    spi_log s' = spi_log s ++ l /\ length l = 2%nat /\
    calls s' = calls s ++ [CStopCrypto].
Proof.
  intros s. unfold stop_crypto, procedure.
  destruct (traffic_step _ _ (clear_bitmask addr_Status2Reg 8)
              (fun _ => modify (set_authed false)) _ _ (enter CStopCrypto s)
              (clear_bitmask_traffic _ _))
    as ([] & s1 & l & E & (_ & _ & _ & Ic) & L & N).
  rewrite E. exists (set_authed false s1), l.
  split; [reflexivity | ]. split; [reflexivity | ].
  split; [exact L | ]. split; [lia | exact Ic].
Qed.

(** [cleanup] always returns and leaves the session not authenticated.  On
    a session that is not authenticated it does nothing: no bus exchange,
    no call, the session unchanged; so a second [cleanup] is a no-op.  On
    an authenticated session it is one [stop_crypto], two bus exchanges. *)
Theorem cleanup_idempotent : forall s,
  exists s',
    cleanup s = (Ok tt, s') /\ authed s' = false /\
    cleanup s' = (Ok tt, s') /\
    (authed s = false -> s' = s) /\
    (authed s = true ->
     exists l, spi_log s' = spi_log s ++ l /\ length l = 2%nat /\
       calls s' = calls s ++ [CStopCrypto]).
Proof.
  intros s. unfold cleanup at 1. destruct (authed s) eqn:Ea.
  - destruct (stop_crypto_log s) as (s' & l & E & Ha & L & N & Hc).
    exists s'. split; [exact E | ]. split; [exact Ha | ].
    split; [unfold cleanup; rewrite Ha; reflexivity | ].
    split; [discriminate | ]. intros _. exists l. auto.
  - exists s. split; [reflexivity | ]. split; [exact Ea | ].
    split; [unfold cleanup; rewrite Ea; reflexivity | ].
    split; [reflexivity | discriminate].
Qed.

(** ** Request *)

(** [request] always returns.  When it reports no error the value it
    returns beside the flag is the number of response bits, always 16;
    when it reports an error that value is [None]. *)
Theorem request_tag_type : forall req_mode s,
  exists error tag_type s',
    request req_mode s = (Ok (error, tag_type), s') /\
    (error = false -> tag_type = Some 0x10) /\
    (error = true -> tag_type = None) /\
    calls s' = calls s ++ [CRequest].
Proof.
  intros req_mode s.
  assert (H : runs (dev_write addr_BitFramingReg 0x07 ;;
                    '(error, back_data, back_bits) <-
                      card_write mode_transrec [req_mode] ;;
                    if error || negb (back_bits =? 0x10) then ret (true, None)
                    else ret (false, Some back_bits))
                (fun r => (fst r = false -> snd r = Some 0x10) /\
                          (fst r = true -> snd r = None))).
  { eapply runs_bind; [apply dev_write_runs | intros _ _].
    eapply runs_bind; [apply card_write_runs | ].
    intros [[e bd] bl] _.
    destruct e; simpl; [apply runs_ret; simpl; split; [discriminate | reflexivity] | ].
    destruct (bl =? 16) eqn:E16; simpl; apply runs_ret; simpl.
    - apply Z.eqb_eq in E16. subst bl. split; [reflexivity | discriminate].
    - split; [discriminate | reflexivity]. }
  destruct (procedure_runs _ CRequest _ _ s H) as ([e t] & s' & E & (H1 & H2) & Hc & _).
  exists e, t, s'. unfold request. simpl in *. auto.
Qed.

(** ** Short arguments *)

Lemma append_items_short : forall count buf src start s,
  (start <= length src)%nat -> (length src < start + count)%nat ->
  append_items buf src start count s = (Raise IndexError, s).
Proof.
  induction count as [ | count IH]; intros buf src start s Hs Hlen;
    simpl append_items; [lia | ].
  unfold py_index. destruct (nth_error src start) as [v | ] eqn:Ev.
  - assert (start < length src)%nat by (apply nth_error_Some; congruence).
    unfold bind at 1, ret at 1. apply IH; lia.
  - reflexivity.
Qed.

(** [select_tag] on a UID of fewer than 5 items, such as the 4-byte UID
    its docstring asks for, raises [IndexError] before any bus exchange:
    the session is the one at entry. *)
Theorem select_tag_short_uid : forall uid s,
  (length uid < 5)%nat ->
  select_tag uid s = (Raise IndexError, enter CSelectTag s).
Proof.
  intros uid s H. unfold select_tag, procedure, bind.
  rewrite append_items_short by (simpl; lia). reflexivity.
Qed.

(** [card_auth] on a UID of fewer than 4 items raises [IndexError] before
    any bus exchange: the session is the one at entry, the authenticated
    flag untouched. *)
Theorem card_auth_short_uid : forall auth_mode block_address key uid s,
  (length uid < 4)%nat ->
  card_auth auth_mode block_address key uid s
    = (Raise IndexError, enter CCardAuth s).
Proof.
  intros auth_mode block_address key uid s H. unfold card_auth, procedure, bind.
  rewrite append_items_short by (simpl; lia). reflexivity.
Qed.

(** ** Block write: length of the data *)

Lemma bind_ext : forall A B (m : M A) (f g : A -> M B) s,
  (forall a s1, f a s1 = g a s1) -> bind m f s = bind m g s.
Proof.
  intros A B m f g s H. unfold bind.
  destruct (m s) as [[a | e] s1]; [apply H | reflexivity].
Qed.

(** [write] uses the first 16 items of [data] only: on longer data it
    behaves as on their first 16 items. *)
Theorem write_ignores_extra_data : forall block_address data s,
  (16 <= length data)%nat ->
  write block_address data s = write block_address (firstn 16 data) s.
Proof.
  intros block_address data s H. unfold write, procedure.
  apply bind_ext. intros [[e bd] bl] s1.
  apply bind_ext. intros nack s2.
  destruct (negb (if nack then true else e)); [ | reflexivity].
  assert (H16 : (16 <= length (firstn 16 data))%nat)
    by (rewrite length_firstn; lia).
  rewrite (bind_Ok _ _ _ _ _ _ _ (append_items_eq 16 [] data 0 s2 H)).
  rewrite (bind_Ok _ _ _ _ _ _ _ (append_items_eq 16 [] (firstn 16 data) 0 s2 H16)).
  change (skipn 0 data) with data.
  change (skipn 0 (firstn 16 data)) with (firstn 16 data).
  rewrite firstn_firstn. reflexivity.
Qed.

(** [write] on data of fewer than 16 items: when the first phase is
    acknowledged without error, [write] raises [IndexError] in the state
    the first phase left, the write command sent and acknowledged and no
    data sent. *)
Theorem write_short_data : forall block_address data s bd bl s1,
  procedure CWrite (write_phase [act_write; block_address]) s
    = (Ok (false, bd, bl), s1) ->
  is_ack bd bl ->
  (length data < 16)%nat ->
  write block_address data s = (Raise IndexError, s1).
Proof.
  intros block_address data s bd bl s1 H1 Hack Hlen.
  unfold procedure in H1.
  destruct (runs_elim _ _ _ _ _ _ (write_phase_runs _) H1) as (_ & _ & Hl).
  simpl in Hl.
  destruct (ack_missing_eq bd bl s1 Hl) as (nack & Eack & Hnack).
  apply Hnack in Hack. subst nack.
  unfold write, procedure. rewrite (bind_Ok _ _ _ _ _ _ _ H1). cbv iota beta.
  rewrite (bind_Ok _ _ _ _ _ _ _ Eack).
  change (negb false) with true. cbv iota.
  unfold bind at 1. rewrite append_items_short by (simpl; lia). reflexivity.
Qed.

(** ** No card in the field *)

Lemma dev_read_xfer : forall address s,
  exists v s', dev_read address s = (Ok v, s') /\ io_only s s' /\
    v = nth 1 (fst (xfer2 (spi s) [read_frame address; 0])) 0.
Proof.
  intros address s. unfold dev_read.
  destruct (spi_transfer_eq [Z.lor (Z.land (Z.shiftl address 1) 0x7E) 0x80; 0] s)
    as (s' & E & I & _).
  rewrite (bind_Ok _ _ _ _ _ _ _ E).
  destruct (xfer2_wf (spi s) [Z.lor (Z.land (Z.shiftl address 1) 0x7E) 0x80; 0]) as [Hl _].
  unfold read_frame.
  destruct (fst (xfer2 (spi s) [Z.lor (Z.land (Z.shiftl address 1) 0x7E) 0x80; 0]))
    as [ | x [ | v [ | ? ?]]]; simpl in Hl; try discriminate.
  exists v, s'. split; [reflexivity | split; [exact I | reflexivity]].
Qed.

Lemma irq_masks_cases : forall command,
  snd (irq_masks command) = 0 \/ snd (irq_masks command) = 0x10 \/
  snd (irq_masks command) = 0x30.
Proof.
  intros command. unfold irq_masks.
  destruct (command =? mode_auth); destruct (command =? mode_transrec); simpl; auto.
Qed.

Section Silent.

(** The interrupt-request register never shows a receive or idle
    interrupt: no card answers and no command completes. *)
Hypothesis silent : forall d,
  Z.land (nth 1 (fst (xfer2 d [read_frame addr_ComIrqReq; 0])) 0) 0x30 = 0.

Lemma poll_irq_silent : forall fuel irq_wait i s,
  irq_wait = 0 \/ irq_wait = 0x10 \/ irq_wait = 0x30 ->
  0 < i <= Z.of_nat fuel ->
  exists n s', poll_irq fuel irq_wait i s = (Ok (n, 0), s') /\ io_only s s'.
Proof.
  induction fuel as [ | fuel IH]; intros w i s Hw Hi; [simpl in Hi; lia | ].
  simpl poll_irq.
  destruct (dev_read_xfer addr_ComIrqReq s) as (n & s1 & E1 & I1 & Hn).
  rewrite (bind_Ok _ _ _ _ _ _ _ E1).
  assert (Hbits : Z.land n w = 0).
  { pose proof (silent (spi s)) as H48. rewrite <- Hn in H48.
    destruct Hw as [-> | [-> | ->]].
    - apply Z.land_0_r.
    - change 16 with (Z.land 48 16). rewrite Z.land_assoc, H48. reflexivity.
    - exact H48. }
  rewrite poll_break_eq by (destruct Hw as [-> | [-> | ->]]; lia).
  rewrite Hbits. change (negb (0 =? 0)) with false. rewrite orb_false_r.
  destruct (i - 1 =? 0) eqn:Ei.
  - apply Z.eqb_eq in Ei. rewrite Ei. exists n, s1. split; [reflexivity | exact I1].
  - apply Z.eqb_neq in Ei.
    destruct (IH w (i - 1) s1 Hw) as (n' & s2 & E2 & I2); [lia | ].
    exists n', s2. split; [exact E2 | eapply io_only_trans; eassumption].
Qed.

Lemma card_write_silent : forall command data s,
  exists s', card_write command data s = (Ok (false, [], 0), s') /\ io_only s s'.
Proof.
  intros command data s. unfold card_write, card_write_issue, card_write_collect.
  pose proof (irq_masks_cases command) as Hw.
  destruct (irq_masks command) as [irq irq_wait]. simpl in Hw.
  assert (Hissue : runs (dev_write addr_ComIEnReg (Z.lor irq 0x80) ;;
                         clear_bitmask addr_ComIrqReq 0x80 ;;
                         set_bitmask addr_FIFOLevelReg 0x80 ;;
                         dev_write addr_CommandReg mode_idle ;;
                         write_fifo data ;;
                         dev_write addr_CommandReg command ;;
                         (if command =? mode_transrec
                          then set_bitmask addr_BitFramingReg 0x80 else ret tt) ;;
                         poll_irq 2000 irq_wait 2000)
                        (fun p => snd p = 0)).
  { eapply runs_bind; [apply dev_write_runs | intros].
    eapply runs_bind; [apply clear_bitmask_runs | intros].
    eapply runs_bind; [apply set_bitmask_runs | intros].
    eapply runs_bind; [apply dev_write_runs | intros].
    eapply runs_bind; [apply write_fifo_runs | intros].
    eapply runs_bind; [apply dev_write_runs | intros].
    eapply runs_bind with (P := fun _ => True).
    - destruct (command =? mode_transrec); [apply set_bitmask_runs | apply runs_ret; exact I].
    - intros _ _ s0.
      destruct (poll_irq_silent 2000 irq_wait 2000 s0 Hw) as (n & s' & E & I);
        [simpl; lia | ].
      exists (n, 0), s'. auto. }
  destruct (Hissue s) as ([n i] & s1 & E1 & I1 & Hz). simpl in Hz. subst i.
  rewrite (bind_Ok _ _ _ _ _ _ _ E1). cbv iota beta.
  destruct (runs_step _ _ _ (fun _ => ret (false, @nil Z, 0)) _ s1
              (clear_bitmask_runs addr_BitFramingReg 128)) as ([] & s2 & E2 & I2 & _).
  exists s2. split; [exact E2 | eapply io_only_trans; eassumption].
Qed.

(** On a bus whose interrupt-request register never shows bit 0x10 or
    0x20, [read_id] returns [None] after the request alone: no
    anti-collision round is tried, and the authenticated flag is as it
    was. *)
Theorem read_id_no_card : forall as_number s,
  exists s',
    read_id as_number s = (Ok PyNone, s') /\
    calls s' = calls s ++ [CRequest] /\ authed s' = authed s.
Proof.
  intros as_number s. unfold read_id, request, procedure.
  destruct (dev_write_eq addr_BitFramingReg 7 (enter CRequest s))
    as (r & s1 & E1 & (_ & _ & Ia1 & Ic1) & _).
  destruct (card_write_silent mode_transrec [38] s1) as (s2 & E2 & (_ & _ & Ia2 & Ic2)).
  exists s2. split; [ | simpl in *; split; congruence].
  unfold bind at 1. unfold bind at 1. rewrite E1.
  unfold bind at 1. rewrite E2. reflexivity.
Qed.

End Silent.

(** ** Authentication after a time-out *)

(** When the loop of the authenticate command exhausts its budget and the
    status register then shows bit 0x08, [card_auth] reports no error and
    marks the session authenticated. *)
Theorem card_auth_after_timeout :
  forall auth_mode block_address key uid s n s1 s2 status s3,
  (4 <= length uid)%nat ->
  card_write_issue mode_auth (([auth_mode; block_address] ++ key) ++ firstn 4 uid)
    (enter CCardAuth s) = (Ok (n, 0), s1) ->
  clear_bitmask addr_BitFramingReg 0x80 s1 = (Ok tt, s2) ->
  dev_read addr_Status2Reg s2 = (Ok status, s3) ->
  Z.land status 0x08 <> 0 ->
  card_auth auth_mode block_address key uid s = (Ok false, set_authed true s3).
Proof.
  intros auth_mode block_address key uid s n s1 s2 status s3 Hlen Hissue Hclear Hst Hbit.
  unfold card_auth, procedure.
  rewrite (bind_Ok _ _ _ _ _ _ _
             (append_items_eq 4 ([auth_mode; block_address] ++ key) uid 0
                (enter CCardAuth s) Hlen)).
  change (skipn 0 uid) with uid.
  unfold card_write. unfold bind at 1. unfold bind at 1. rewrite Hissue.
  unfold card_write_collect. change (irq_masks mode_auth) with (0x12, 0x10).
  cbv iota beta. unfold bind at 1. rewrite Hclear.
  change (negb (0 =? 0)) with false. cbv iota. unfold ret at 1.
  rewrite (bind_Ok _ _ _ _ _ _ _ Hst).
  apply Z.eqb_neq in Hbit. rewrite Hbit. reflexivity.
Qed.

(** ** [read_id] never raises *)

(** [read_id] always returns: [None], or a list of 4 or 7 bytes when
    [as_number] is false, or an integer below 2^56 when it is true.  It
    never changes the authenticated flag or the antenna gain. *)
Theorem read_id_returns : forall as_number s,
  exists r s',
    read_id as_number s = (Ok r, s') /\
    match r with
    | PyNone => True
    | PyList l =>
        as_number = false /\ (length l = 4%nat \/ length l = 7%nat) /\
        Forall is_byte l
    | PyInt n => as_number = true /\ 0 <= n < 2 ^ 56
    end /\
    authed s' = authed s /\ antenna_gain s' = antenna_gain s.
Proof.
  intros as_number s. unfold read_id.
  destruct (procedure_runs _ CRequest _ _ s (request_runs 0x26))
    as ([e tag] & s1 & E1 & _ & _ & Ia1 & Ig1).
  change (request 0x26 s = (Ok (e, tag), s1)) in E1.
  rewrite (bind_Ok _ _ _ _ _ _ _ E1). cbv iota beta.
  destruct e; [exists PyNone, s1; auto | ].
  destruct (procedure_runs _ CAnticoll _ _ s1 (anticoll_stage_runs act_anticl))
    as ([e2 uid] & s2 & E2 & (Hb & Hl) & _ & Ia2 & Ig2).
  change (anticoll s1 = (Ok (e2, uid), s2)) in E2.
  rewrite (bind_Ok _ _ _ _ _ _ _ E2). cbv iota beta.
  destruct e2; [exists PyNone, s2; split; [reflexivity | split; [exact I | split; congruence]] | ].
  simpl in Hb, Hl. specialize (Hl eq_refl).
  destruct uid as [ | u0 [ | u1 [ | u2 [ | u3 [ | u4 [ | ? ?]]]]]]; try discriminate.
  assert (B : is_byte u0 /\ is_byte u1 /\ is_byte u2 /\ is_byte u3).
  { rewrite Forall_forall in Hb. repeat split; apply Hb; simpl; tauto. }
  destruct B as (B0 & B1 & B2 & B3).
  unfold py_index at 1. simpl nth_error. cbv iota.
  unfold bind at 1, ret at 1.
  destruct (u0 =? 136) eqn:E0.
  - change (negb true) with false. cbv iota.
    destruct (procedure_runs _ CSelectTag _ _ s2
                (select_tag_runs [u0; u1; u2; u3; u4] ltac:(simpl; lia)))
      as (e3 & s3 & E3 & _ & _ & Ia3 & Ig3).
    change (select_tag [u0; u1; u2; u3; u4] s2 = (Ok e3, s3)) in E3.
    rewrite (bind_Ok _ _ _ _ _ _ _ E3).
    destruct e3; [exists PyNone, s3; split; [reflexivity | split; [exact I | split; congruence]] | ].
    destruct (procedure_runs _ CAnticoll2 _ _ s3 (anticoll_stage_runs act_anticl2))
      as ([e4 uid2] & s4 & E4 & (Hb2 & Hl2) & _ & Ia4 & Ig4).
    change (anticoll2 s3 = (Ok (e4, uid2), s4)) in E4.
    rewrite (bind_Ok _ _ _ _ _ _ _ E4). cbv iota beta.
    destruct e4; [exists PyNone, s4; split; [reflexivity | split; [exact I | split; congruence]] | ].
    simpl in Hb2, Hl2. specialize (Hl2 eq_refl).
    destruct uid2 as [ | v0 [ | v1 [ | v2 [ | v3 [ | v4 [ | ? ?]]]]]]; try discriminate.
    assert (D : is_byte v0 /\ is_byte v1 /\ is_byte v2 /\ is_byte v3).
    { rewrite Forall_forall in Hb2. repeat split; apply Hb2; simpl; tauto. }
    destruct D as (D0 & D1 & D2 & D3).
    destruct (disable_interrupts_runs s4) as ([] & s5 & E5 & (_ & Ig5 & Ia5 & _) & _).
    rewrite (bind_Ok _ _ _ _ _ _ _ E5).
    change (py_slice [u0; u1; u2; u3; u4] 1 (-1)) with [u1; u2; u3].
    change (py_slice [v0; v1; v2; v3; v4] 0 (-1)) with [v0; v1; v2; v3].
    assert (Hb7 : Forall is_byte ([u1; u2; u3] ++ [v0; v1; v2; v3]))
      by (simpl; repeat (constructor; [assumption | ]); constructor).
    destruct as_number.
    + rewrite (bind_Ok _ _ _ _ _ _ _ (int_from_bytes_big_eq _ s5 Hb7)).
      eexists; exists s5. split; [reflexivity | ].
      split; [ | split; congruence].
      split; [reflexivity | ].
      unfold big_endian. simpl. unfold is_byte in *. lia.
    + eexists; exists s5. split; [reflexivity | ].
      split; [ | split; congruence].
      split; [reflexivity | split; [right; reflexivity | exact Hb7]].
  - change (negb false) with true. cbv iota.
    change (py_slice [u0; u1; u2; u3; u4] 0 4) with [u0; u1; u2; u3].
    assert (Hb4 : Forall is_byte [u0; u1; u2; u3])
      by (repeat (constructor; [assumption | ]); constructor).
    destruct as_number.
    + rewrite (bind_Ok _ _ _ _ _ _ _ (int_from_bytes_big_eq _ s2 Hb4)).
      eexists; exists s2. split; [reflexivity | ].
      split; [ | split; congruence].
      split; [reflexivity | ].
      unfold big_endian. simpl. unfold is_byte in *. lia.
    + eexists; exists s2. split; [reflexivity | ].
      split; [ | split; congruence].
      split; [reflexivity | split; [left; reflexivity | exact Hb4]].
Qed.

(** ** Only bytes are sent *)

Lemma byte_land_l : forall a b, is_byte a -> is_byte (Z.land a b).
Proof.
  intros a b Ha. unfold is_byte in *.
  assert (E : Z.land a b = Z.land a b mod 2 ^ 8).
  { rewrite <- Z.land_ones by lia.
    rewrite <- Z.land_assoc, (Z.land_comm b), Z.land_assoc.
    rewrite (Z.land_ones a) by lia. rewrite Z.mod_small by (simpl; lia).
    reflexivity. }
  rewrite E. apply Z.mod_pos_bound. reflexivity.
Qed.

Lemma byte_land_r : forall a b, is_byte b -> is_byte (Z.land a b).
Proof. intros a b Hb. rewrite Z.land_comm. apply byte_land_l. exact Hb. Qed.

Lemma byte_lor : forall a b, is_byte a -> is_byte b -> is_byte (Z.lor a b).
Proof.
  intros a b Ha Hb. unfold is_byte in *.
  assert (E : Z.lor a b = Z.lor a b mod 2 ^ 8).
  { rewrite <- Z.land_ones by lia. rewrite Z.land_lor_distr_l.
    rewrite !Z.land_ones by lia. rewrite !Z.mod_small by (simpl; lia).
    reflexivity. }
  rewrite E. apply Z.mod_pos_bound. reflexivity.
Qed.

Lemma byte_const : forall z, is_byteb z = true -> is_byte z.
Proof.
  intros z H. unfold is_byteb in H. apply andb_true_iff in H.
  destruct H as [H1 H2]. apply Z.leb_le in H1. apply Z.ltb_lt in H2.
  split; assumption.
Qed.

Lemma keeps_ret : forall (I : RFID Dev -> Prop) A (a : A), keeps I (ret a).
Proof. intros I A a s H. exact H. Qed.

Lemma keeps_raise : forall (I : RFID Dev -> Prop) A e, keeps I (@raise A e).
Proof. intros I A e s H. exact H. Qed.

Lemma keeps_bind : forall (I : RFID Dev -> Prop) A B (m : M A) (f : A -> M B)
                          (P : A -> Prop),
  keeps I m ->
  (forall s a s', m s = (Ok a, s') -> P a) ->
  (forall a, P a -> keeps I (f a)) ->
  keeps I (bind m f).
Proof.
  intros I A B m f P Hm HP Hf s Hs. unfold bind.
  specialize (Hm s Hs). destruct (m s) as [[a | e] s1] eqn:E; simpl in Hm.
  - apply Hf; [eapply HP; exact E | exact Hm].
  - exact Hm.
Qed.

Lemma keeps_seq : forall (I : RFID Dev -> Prop) A B (m : M A) (f : A -> M B),
  keeps I m -> (forall a, keeps I (f a)) -> keeps I (bind m f).
Proof.
  intros I A B m f Hm Hf.
  apply keeps_bind with (P := fun _ => True); auto.
Qed.

Lemma spi_transfer_keeps : forall data,
  Forall is_byte data -> keeps sent_bytes (spi_transfer data).
Proof.
  intros data Hd s Hs. destruct (spi_transfer_eq data s) as (s' & E & _ & L).
  rewrite E. simpl. unfold sent_bytes in *. rewrite L.
  apply Forall_app. split; [exact Hs | constructor; [exact Hd | constructor]].
Qed.

Lemma dev_write_keeps : forall address value,
  is_byte value -> keeps sent_bytes (dev_write address value).
Proof.
  intros address value Hv. unfold dev_write.
  apply keeps_seq; [ | intros; apply keeps_ret].
  apply spi_transfer_keeps.
  constructor; [ | constructor; [exact Hv | constructor]].
  apply byte_land_r. apply byte_const. reflexivity.
Qed.

Lemma dev_read_keeps : forall address, keeps sent_bytes (dev_read address).
Proof.
  intros address. unfold dev_read.
  apply keeps_seq.
  - apply spi_transfer_keeps.
    constructor; [ | constructor; [apply byte_const; reflexivity | constructor]].
    apply byte_lor; [ | apply byte_const; reflexivity].
    apply byte_land_r. apply byte_const. reflexivity.
  - intros r. unfold py_index.
    destruct (nth_error r 1); [apply keeps_ret | apply keeps_raise].
Qed.

Lemma dev_read_byte : forall address s v s',
  dev_read address s = (Ok v, s') -> is_byte v.
Proof.
  intros address s v s' H.
  exact (proj2 (runs_elim _ _ _ _ _ _ (dev_read_runs address) H)).
Qed.

Lemma set_bitmask_keeps : forall address mask,
  is_byte mask -> keeps sent_bytes (set_bitmask address mask).
Proof.
  intros address mask Hm. unfold set_bitmask.
  apply keeps_bind with (P := is_byte); [apply dev_read_keeps | apply dev_read_byte | ].
  intros v Hv. apply dev_write_keeps. apply byte_lor; assumption.
Qed.

Lemma clear_bitmask_keeps : forall address mask,
  keeps sent_bytes (clear_bitmask address mask).
Proof.
  intros address mask. unfold clear_bitmask.
  apply keeps_bind with (P := is_byte); [apply dev_read_keeps | apply dev_read_byte | ].
  intros v Hv. apply dev_write_keeps. apply byte_land_l. exact Hv.
Qed.

Lemma write_fifo_keeps : forall data,
  Forall is_byte data -> keeps sent_bytes (write_fifo data).
Proof.
  induction data as [ | b rest IH]; intros Hd; simpl write_fifo.
  - apply keeps_ret.
  - inversion Hd; subst.
    apply keeps_seq; [apply dev_write_keeps; assumption | intros; apply IH; assumption].
Qed.

Lemma read_fifo_keeps : forall n back_data,
  keeps sent_bytes (read_fifo n back_data).
Proof.
  induction n as [ | n IH]; intros back_data; simpl read_fifo.
  - apply keeps_ret.
  - apply keeps_seq; [apply dev_read_keeps | intros; apply IH].
Qed.

Lemma poll_irq_keeps : forall fuel irq_wait i,
  keeps sent_bytes (poll_irq fuel irq_wait i).
Proof.
  induction fuel as [ | fuel IH]; intros w i; simpl poll_irq.
  - apply keeps_raise.
  - apply keeps_seq; [apply dev_read_keeps | intros n].
    destruct (poll_break (i - 1) n w); [apply keeps_ret | apply IH].
Qed.

Lemma poll_crc_keeps : forall fuel i, keeps sent_bytes (poll_crc fuel i).
Proof.
  induction fuel as [ | fuel IH]; intros i; simpl poll_crc.
  - apply keeps_raise.
  - apply keeps_seq; [apply dev_read_keeps | intros n].
    destruct (crc_break (i - 1) n); [apply keeps_ret | apply IH].
Qed.

Lemma card_write_keeps : forall command data,
  is_byte command -> Forall is_byte data ->
  keeps sent_bytes (card_write command data).
Proof.
  intros command data Hc Hd. unfold card_write.
  apply keeps_seq.
  - unfold card_write_issue.
    assert (Hirq : is_byte (Z.lor (fst (irq_masks command)) 0x80)).
    { unfold irq_masks.
      destruct (command =? mode_auth); destruct (command =? mode_transrec);
        apply byte_const; reflexivity. }
    destruct (irq_masks command) as [irq irq_wait]. simpl in Hirq.
    apply keeps_seq; [apply dev_write_keeps; exact Hirq | intros].
    apply keeps_seq; [apply clear_bitmask_keeps | intros].
    apply keeps_seq; [apply set_bitmask_keeps; apply byte_const; reflexivity | intros].
    apply keeps_seq; [apply dev_write_keeps; apply byte_const; reflexivity | intros].
    apply keeps_seq; [apply write_fifo_keeps; exact Hd | intros].
    apply keeps_seq; [apply dev_write_keeps; exact Hc | intros].
    apply keeps_seq; [ | intros; apply poll_irq_keeps].
    destruct (command =? mode_transrec);
      [apply set_bitmask_keeps; apply byte_const; reflexivity | apply keeps_ret].
  - intros [n i]. unfold card_write_collect.
    destruct (irq_masks command) as [irq irq_wait].
    apply keeps_seq; [apply clear_bitmask_keeps | intros _].
    destruct (negb (i =? 0)); [ | apply keeps_ret].
    apply keeps_seq; [apply dev_read_keeps | intros e].
    destruct (Z.land e 27 =? 0); [ | apply keeps_ret].
    destruct (command =? mode_transrec); [ | apply keeps_ret].
    apply keeps_seq; [apply dev_read_keeps | intros lvl].
    apply keeps_seq; [apply dev_read_keeps | intros c].
    apply keeps_seq; [apply read_fifo_keeps | intros; apply keeps_ret].
Qed.

Lemma card_write_bytes : forall command data s r s',
  card_write command data s = (Ok r, s') -> Forall is_byte (snd (fst r)).
Proof.
  intros command data s r s' H.
  exact (proj1 (proj2 (runs_elim _ _ _ _ _ _ (card_write_runs command data) H))).
Qed.

Lemma calculate_crc_keeps : forall data,
  Forall is_byte data -> keeps sent_bytes (calculate_crc data).
Proof.
  intros data Hd. unfold calculate_crc.
  apply keeps_seq; [apply clear_bitmask_keeps | intros].
  apply keeps_seq; [apply set_bitmask_keeps; apply byte_const; reflexivity | intros].
  apply keeps_seq; [apply write_fifo_keeps; exact Hd | intros].
  apply keeps_seq; [apply dev_write_keeps; apply byte_const; reflexivity | intros].
  apply keeps_seq; [apply poll_crc_keeps | intros].
  apply keeps_seq; [apply dev_read_keeps | intros].
  apply keeps_seq; [apply dev_read_keeps | intros]. apply keeps_ret.
Qed.

Lemma calculate_crc_bytes : forall data s crc s',
  calculate_crc data s = (Ok crc, s') ->
  exists lo hi, crc = [lo; hi] /\ is_byte lo /\ is_byte hi.
Proof.
  intros data s crc s' H. unfold calculate_crc in H.
  do 5 (apply bind_inv in H; destruct H as (? & ? & _ & H)).
  apply bind_inv in H. destruct H as (lo & s6 & Hlo & H).
  apply bind_inv in H. destruct H as (hi & s7 & Hhi & H).
  unfold ret in H. inversion H; subst.
  exists lo, hi. split; [reflexivity | ].
  split; eapply dev_read_byte; eassumption.
Qed.

Lemma py_index_keeps : forall (I : RFID Dev -> Prop) l i, keeps I (py_index l i).
Proof.
  intros I l i. unfold py_index.
  destruct (nth_error l i); [apply keeps_ret | apply keeps_raise].
Qed.

Lemma py_index_in : forall l i s v s',
  py_index l i s = (Ok v, s') -> In v l.
Proof.
  intros l i s v s' H. unfold py_index in H.
  destruct (nth_error l i) as [x | ] eqn:E; [ | discriminate].
  inversion H; subst. eapply nth_error_In; exact E.
Qed.

Lemma append_items_keeps : forall (I : RFID Dev -> Prop) count buf src start,
  keeps I (append_items buf src start count).
Proof.
  intros I. induction count as [ | count IH]; intros buf src start; simpl append_items.
  - apply keeps_ret.
  - apply keeps_seq; [apply py_index_keeps | intros; apply IH].
Qed.

Lemma append_items_bytes : forall count buf src start s b s',
  append_items buf src start count s = (Ok b, s') ->
  Forall is_byte buf -> Forall is_byte src -> Forall is_byte b.
Proof.
  induction count as [ | count IH]; intros buf src start s b s' H Hb Hs;
    simpl append_items in H.
  - inversion H; subst. exact Hb.
  - apply bind_inv in H. destruct H as (v & s1 & Hv & H).
    apply (IH _ _ _ _ _ _ H); [ | exact Hs].
    apply Forall_app. split; [exact Hb | ].
    constructor; [ | constructor].
    rewrite Forall_forall in Hs. apply Hs. eapply py_index_in; exact Hv.
Qed.

Lemma procedure_keeps : forall A (p : proc) (m : M A),
  keeps sent_bytes m -> keeps sent_bytes (procedure p m).
Proof. intros A p m Hm s Hs. unfold procedure. apply Hm. exact Hs. Qed.

Lemma modify_authed_keeps : forall b, keeps sent_bytes (modify (set_authed b)).
Proof. intros b s Hs. exact Hs. Qed.

Lemma crc_then_keeps : forall B buf (k : Z -> Z -> M B),
  Forall is_byte buf ->
  (forall c0 c1, is_byte c0 -> is_byte c1 -> keeps sent_bytes (k c0 c1)) ->
  keeps sent_bytes (crc <- calculate_crc buf ;;
                    c0 <- py_index crc 0 ;;
                    c1 <- py_index crc 1 ;;
                    k c0 c1).
Proof.
  intros B buf k Hb Hk.
  apply keeps_bind with (P := fun crc => Forall is_byte crc);
    [apply calculate_crc_keeps; exact Hb | | ].
  - intros s crc s' H. destruct (calculate_crc_bytes _ _ _ _ H) as (lo & hi & -> & Hlo & Hhi).
    constructor; [exact Hlo | constructor; [exact Hhi | constructor]].
  - intros crc Hcrc. rewrite Forall_forall in Hcrc.
    apply keeps_bind with (P := is_byte); [apply py_index_keeps | | ].
    + intros s a s' H. apply Hcrc. eapply py_index_in; exact H.
    + intros c0 H0.
      apply keeps_bind with (P := is_byte); [apply py_index_keeps | | ].
      * intros s a s' H. apply Hcrc. eapply py_index_in; exact H.
      * intros c1 H1. apply Hk; assumption.
Qed.

Lemma write_phase_keeps : forall buf,
  Forall is_byte buf -> keeps sent_bytes (write_phase buf).
Proof.
  intros buf Hb. unfold write_phase.
  apply (crc_then_keeps _ buf
           (fun c0 c1 => card_write mode_transrec (buf ++ [c0] ++ [c1])) Hb).
  intros c0 c1 H0 H1. apply card_write_keeps; [apply byte_const; reflexivity | ].
  apply Forall_app. split; [exact Hb | ].
  constructor; [exact H0 | constructor; [exact H1 | constructor]].
Qed.

Lemma request_keeps : forall req_mode,
  is_byte req_mode -> keeps sent_bytes (request req_mode).
Proof.
  intros req_mode Hr. unfold request. apply procedure_keeps.
  apply keeps_seq; [apply dev_write_keeps; apply byte_const; reflexivity | intros _].
  apply keeps_seq.
  - apply card_write_keeps; [apply byte_const; reflexivity | ].
    constructor; [exact Hr | constructor].
  - intros [[e bd] bl]. destruct (e || negb (bl =? 16)); apply keeps_ret.
Qed.

Lemma anticoll_check_keeps : forall error back_data,
  keeps sent_bytes (anticoll_check error back_data).
Proof.
  intros error bd. unfold anticoll_check.
  destruct (negb error); [ | apply keeps_ret].
  destruct (length bd =? 5)%nat; [ | apply keeps_ret].
  repeat (apply keeps_seq; [apply py_index_keeps | intros]).
  destruct (negb _); apply keeps_ret.
Qed.

Lemma anticoll_stage_keeps : forall code,
  is_byte code ->
  keeps sent_bytes
    (dev_write addr_BitFramingReg 0x00 ;;
     '(error, back_data, back_bits) <- card_write mode_transrec [code; 0x20] ;;
     error <- anticoll_check error back_data ;;
     ret (error, back_data)).
Proof.
  intros code Hc.
  apply keeps_seq; [apply dev_write_keeps; apply byte_const; reflexivity | intros _].
  apply keeps_seq.
  - apply card_write_keeps; [apply byte_const; reflexivity | ].
    constructor; [exact Hc | constructor; [apply byte_const; reflexivity | constructor]].
  - intros [[e bd] bl].
    apply keeps_seq; [apply anticoll_check_keeps | intros; apply keeps_ret].
Qed.

Lemma select_tag_keeps : forall uid,
  Forall is_byte uid -> keeps sent_bytes (select_tag uid).
Proof.
  intros uid Hu. unfold select_tag. apply procedure_keeps.
  apply keeps_bind with (P := fun buf => Forall is_byte buf);
    [apply append_items_keeps | | ].
  - intros s b s' H. apply (append_items_bytes _ _ _ _ _ _ _ H); [ | exact Hu].
    constructor; [apply byte_const; reflexivity | ].
    constructor; [apply byte_const; reflexivity | constructor].
  - intros buf Hbuf.
    apply (crc_then_keeps _ buf
             (fun c0 c1 =>
                '(error, back_data, back_length) <-
                  card_write mode_transrec (buf ++ [c0] ++ [c1]) ;;
                if negb error && (back_length =? 0x18) then ret false else ret true)
             Hbuf).
    intros c0 c1 H0 H1.
    apply keeps_seq.
    + apply card_write_keeps; [apply byte_const; reflexivity | ].
      apply Forall_app. split; [exact Hbuf | ].
      constructor; [exact H0 | constructor; [exact H1 | constructor]].
    + intros [[e bd] bl]. destruct (negb e && (bl =? 24)); apply keeps_ret.
Qed.

Lemma disable_interrupts_keeps : keeps sent_bytes disable_interrupts.
Proof.
  unfold disable_interrupts.
  repeat (apply keeps_seq; [apply dev_write_keeps; apply byte_const; reflexivity | intros]).
  apply dev_write_keeps; apply byte_const; reflexivity.
Qed.

Lemma int_from_bytes_big_keeps : forall (I : RFID Dev -> Prop) l,
  keeps I (int_from_bytes_big l).
Proof.
  intros I l. unfold int_from_bytes_big.
  destruct (forallb is_byteb l); [apply keeps_ret | apply keeps_raise].
Qed.

Lemma read_id_keeps : forall as_number, keeps sent_bytes (read_id as_number).
Proof.
  intros as_number. unfold read_id.
  apply keeps_seq; [apply request_keeps; apply byte_const; reflexivity | ].
  intros [e tag]. destruct e; [apply keeps_ret | ].
  apply keeps_bind with (P := fun r => Forall is_byte (snd r)).
  - unfold anticoll. apply procedure_keeps. apply anticoll_stage_keeps.
    apply byte_const; reflexivity.
  - intros s [e uid] s' H. unfold anticoll in H.
    exact (proj1 (proj1 (procedure_elim _ _ _ _ _ _ _ (anticoll_stage_runs act_anticl) H))).
  - intros [e2 uid] Hu. simpl in Hu. destruct e2; [apply keeps_ret | ].
    apply keeps_seq; [apply py_index_keeps | intros u0].
    destruct (negb (u0 =? 136)).
    + destruct as_number; [ | apply keeps_ret].
      apply keeps_seq; [apply int_from_bytes_big_keeps | intros; apply keeps_ret].
    + apply keeps_seq; [apply select_tag_keeps; exact Hu | intros e3].
      destruct e3; [apply keeps_ret | ].
      apply keeps_seq.
      * unfold anticoll2. apply procedure_keeps. apply anticoll_stage_keeps.
        apply byte_const; reflexivity.
      * intros [e4 uid2]. destruct e4; [apply keeps_ret | ].
        apply keeps_seq; [apply disable_interrupts_keeps | intros _].
        destruct as_number; [ | apply keeps_ret].
        apply keeps_seq; [apply int_from_bytes_big_keeps | intros; apply keeps_ret].
Qed.

Lemma ack_missing_keeps : forall (I : RFID Dev -> Prop) bd bl,
  keeps I (ack_missing bd bl).
Proof.
  intros I bd bl. unfold ack_missing.
  destruct (negb (bl =? 4)); [apply keeps_ret | ].
  apply keeps_seq; [apply py_index_keeps | intros; apply keeps_ret].
Qed.

Lemma write_keeps : forall block_address data,
  is_byte block_address -> Forall is_byte data ->
  keeps sent_bytes (write block_address data).
Proof.
  intros block_address data Hb Hd. unfold write. apply procedure_keeps.
  apply keeps_seq.
  - apply write_phase_keeps.
    constructor; [apply byte_const; reflexivity | constructor; [exact Hb | constructor]].
  - intros [[e bd] bl].
    apply keeps_seq; [apply ack_missing_keeps | intros nack].
    destruct (negb (if nack then true else e)); [ | apply keeps_ret].
    apply keeps_bind with (P := fun buf => Forall is_byte buf);
      [apply append_items_keeps | | ].
    + intros s b s' H. apply (append_items_bytes _ _ _ _ _ _ _ H); [constructor | exact Hd].
    + intros buf_w Hbuf.
      apply keeps_seq; [apply write_phase_keeps; exact Hbuf | ].
      intros [[e2 bd2] bl2].
      apply keeps_seq; [apply ack_missing_keeps | intros; apply keeps_ret].
Qed.

Lemma read_keeps : forall block_address,
  is_byte block_address -> keeps sent_bytes (read block_address).
Proof.
  intros block_address Hb. unfold read.
  apply keeps_seq.
  - apply write_phase_keeps.
    constructor; [apply byte_const; reflexivity | constructor; [exact Hb | constructor]].
  - intros [[e bd] bl]. apply keeps_ret.
Qed.

Lemma card_auth_keeps : forall auth_mode block_address key uid,
  is_byte auth_mode -> is_byte block_address ->
  Forall is_byte key -> Forall is_byte uid ->
  keeps sent_bytes (card_auth auth_mode block_address key uid).
Proof.
  intros auth_mode block_address key uid Hm Hb Hk Hu.
  unfold card_auth. apply procedure_keeps.
  apply keeps_bind with (P := fun buf => Forall is_byte buf);
    [apply append_items_keeps | | ].
  - intros s b s' H. apply (append_items_bytes _ _ _ _ _ _ _ H); [ | exact Hu].
    apply Forall_app. split; [ | exact Hk].
    constructor; [exact Hm | constructor; [exact Hb | constructor]].
  - intros buf Hbuf.
    apply keeps_seq;
      [apply card_write_keeps; [apply byte_const; reflexivity | exact Hbuf] | ].
    intros [[e bd] bl].
    apply keeps_seq; [apply dev_read_keeps | intros status].
    apply keeps_seq; [ | intros; apply keeps_ret].
    destruct (negb _); [apply modify_authed_keeps | apply keeps_ret].
Qed.

Lemma halt_keeps : keeps sent_bytes halt.
Proof.
  unfold halt. apply procedure_keeps.
  assert (Hbuf : Forall is_byte [act_end; 0])
    by (constructor; [apply byte_const; reflexivity
                     | constructor; [apply byte_const; reflexivity | constructor]]).
  apply keeps_seq; [apply calculate_crc_keeps; exact Hbuf | intros _].
  apply keeps_seq; [apply clear_bitmask_keeps | intros _].
  apply keeps_seq;
    [apply card_write_keeps; [apply byte_const; reflexivity | exact Hbuf] | intros _].
  apply keeps_seq; [apply clear_bitmask_keeps | intros _].
  apply modify_authed_keeps.
Qed.

Lemma init_keeps : keeps sent_bytes init.
Proof.
  unfold init, reset.
  apply keeps_seq; [apply dev_write_keeps; apply byte_const; reflexivity | intros _].
  apply keeps_seq; [apply disable_interrupts_keeps | intros _].
  do 6 (apply keeps_seq; [apply dev_write_keeps; apply byte_const; reflexivity | intros _]).
  apply keeps_seq.
  - intros s Hs. unfold set_antenna_gain.
    destruct ((0 <=? antenna_gain s) && (antenna_gain s <=? 7)) eqn:Eg; [ | exact Hs].
    apply andb_true_iff in Eg. destruct Eg as [E0 E7].
    apply Z.leb_le in E0. apply Z.leb_le in E7.
    unfold bind, modify.
    apply (dev_write_keeps addr_RFCfgReg
             (Z.shiftl (antenna_gain (set_gain (antenna_gain s) s)) 4));
      [ | exact Hs].
    change (antenna_gain (set_gain (antenna_gain s) s)) with (antenna_gain s).
    rewrite Z.shiftl_mul_pow2 by lia. unfold is_byte. change (2 ^ 4) with 16. lia.
  - intros _. unfold set_antenna.
    apply keeps_seq; [apply dev_read_keeps | intros current].
    destruct (truthy _); [ | apply keeps_ret].
    apply set_bitmask_keeps. apply byte_const. reflexivity.
Qed.

(** Every value handed to the transport by [read_id], [read], [write],
    [card_auth], [halt] and [init] is a byte, whatever the chip answers and
    whether the call returns or raises, provided the block address, data,
    key and UID passed in are bytes: the read-modify-write helpers never
    leave the range. *)
Theorem driver_sends_bytes : forall s,
  sent_bytes s ->
  (forall as_number, sent_bytes (snd (read_id as_number s))) /\
  (forall block_address,
     is_byte block_address -> sent_bytes (snd (read block_address s))) /\
  (forall block_address data,
     is_byte block_address -> Forall is_byte data ->
     sent_bytes (snd (write block_address data s))) /\
  (forall auth_mode block_address key uid,
     is_byte auth_mode -> is_byte block_address ->
     Forall is_byte key -> Forall is_byte uid ->
     sent_bytes (snd (card_auth auth_mode block_address key uid s))) /\
  sent_bytes (snd (halt s)) /\
  sent_bytes (snd (init s)).
Proof.
  intros s Hs.
  split; [intros; apply read_id_keeps; exact Hs | ].
  split; [intros; apply read_keeps; assumption | ].
  split; [intros; apply write_keeps; assumption | ].
  split; [intros; apply card_auth_keeps; assumption | ].
  split; [apply halt_keeps; exact Hs | apply init_keeps; exact Hs].
Qed.

(** ** Register frames *)

Lemma frame_values : forall address,
  0 <= address < 64 ->
  write_frame address = 2 * address /\ read_frame address = 2 * address + 128.
Proof.
  intros address H.
  assert (Hall : forallb (fun n => let a := Z.of_nat n in
                            (write_frame a =? 2 * a) && (read_frame a =? 2 * a + 128))
                         (seq 0 64) = true) by (vm_compute; reflexivity).
  rewrite forallb_forall in Hall.
  specialize (Hall (Z.to_nat address)).
  rewrite in_seq in Hall. cbv zeta in Hall.
  rewrite Z2Nat.id in Hall by lia.
  destruct (andb_prop _ _ (Hall ltac:(lia))) as [H1 H2].
  apply Z.eqb_eq in H1. apply Z.eqb_eq in H2. auto.
Qed.

(** For a register address in 0..63, [dev_write] sends the frame
    [2 * address] followed by the value and [dev_read] sends
    [2 * address + 128] followed by 0: distinct registers use distinct
    frames, and a read frame is never a write frame. *)
Theorem register_frames : forall address value s,
  0 <= address < 64 ->
  (exists r s',
     dev_write address value s = (Ok tt, s') /\
     spi_log s' = spi_log s ++ [([2 * address; value], r)]) /\
  (exists x v s',
     dev_read address s = (Ok v, s') /\
     spi_log s' = spi_log s ++ [([2 * address + 128; 0], [x; v])]).
Proof.
  intros address value s H.
  destruct (frame_values address H) as [Hw Hr].
  split.
  - destruct (dev_write_eq address value s) as (r & s' & E & _ & L).
    exists r, s'. rewrite <- Hw. auto.
  - destruct (dev_read_eq address s) as (x & v & s' & E & _ & _ & L).
    exists x, v, s'. rewrite <- Hr. auto.
Qed.
End Driver.

Arguments bind {Dev A B}.
Arguments procedure {Dev A}.
Arguments dev_write {Dev}.
Arguments dev_read {Dev}.
Arguments clear_bitmask {Dev}.
Arguments set_antenna_gain {Dev}.
Arguments poll_irq {Dev}.
Arguments card_write_issue {Dev}.
Arguments card_write {Dev}.
Arguments calculate_crc {Dev}.
Arguments request {Dev}.
Arguments anticoll {Dev}.
Arguments anticoll2 {Dev}.
Arguments select_tag {Dev}.
Arguments card_auth {Dev}.
Arguments stop_crypto {Dev}.
Arguments halt {Dev}.
Arguments write_phase {Dev}.
Arguments write {Dev}.
Arguments read_id {Dev}.

(** ** Runs on the simulated chip *)

Lemma sim_read_byte : forall a d, is_byte (fst (sim_read a d)).
Proof.
  intros a. induction d as [ | [k q] rest IH]; simpl.
  - unfold is_byte; lia.
  - destruct (k =? a).
    + destruct q as [ | v [ | v' q']]; simpl; unfold is_byte;
        try lia; apply Z.mod_pos_bound; lia.
    + destruct (sim_read a rest) as [v rest']. exact IH.
Qed.

(** The simulated chip is a full-duplex byte transport. *)
Lemma sim_xfer2_wf : forall d data,
  length (fst (sim_xfer2 d data)) = length data /\
  Forall is_byte (fst (sim_xfer2 d data)).
Proof.
  assert (Hz : is_byte 0) by (unfold is_byte; lia).
  assert (Hmap : forall l : list Z,
             length (map (fun _ => 0) l) = length l /\
             Forall is_byte (map (fun _ : Z => 0) l)).
  { intros l. split; [apply length_map | ].
    apply Forall_forall. intros x Hx. apply in_map_iff in Hx.
    destruct Hx as (? & <- & _). exact Hz. }
  intros d data. unfold sim_xfer2.
  destruct data as [ | a [ | b [ | c rest]]]; try apply Hmap.
  destruct (128 <=? a).
  - pose proof (sim_read_byte a d) as Hb.
    destruct (sim_read a d) as [v d']. simpl in *.
    split; [reflexivity | ].
    constructor; [exact Hz | constructor; [exact Hb | constructor]].
  - simpl. split; [reflexivity | ].
    constructor; [exact Hz | constructor; [exact Hz | constructor]].
Qed.

Lemma set_antenna_gain_range_witness :
  (exists r s',
     set_antenna_gain sim_xfer2 3 (sim_session chip_idle) = (Ok tt, s') /\
     antenna_gain s' = 3 /\
     spi_log s' =
       spi_log (sim_session chip_idle) ++
         [([write_frame addr_RFCfgReg; Z.shiftl 3 4], r)]) /\
  set_antenna_gain sim_xfer2 8 (sim_session chip_idle)
    = (Raise ValueError, sim_session chip_idle) /\
  set_antenna_gain sim_xfer2 (-1) (sim_session chip_idle)
    = (Raise ValueError, sim_session chip_idle).
Proof.
  split; [ | split].
  - apply (proj1 (set_antenna_gain_range Sim sim_xfer2 3 (sim_session chip_idle))).
    lia.
  - apply (proj2 (set_antenna_gain_range Sim sim_xfer2 8 (sim_session chip_idle))).
    lia.
  - apply (proj2 (set_antenna_gain_range Sim sim_xfer2 (-1) (sim_session chip_idle))).
    lia.
Defined.

Lemma anticoll_checksum_witness :
  let s := snd (request sim_xfer2 0x26 (sim_session chip_uid4)) in
  (exists error,
     anticoll sim_xfer2 s = (Ok (error, [1; 2; 3; 4; 4]), snd (anticoll sim_xfer2 s)) /\
     (length [1; 2; 3; 4; 4] <> 5%nat -> error = true) /\
     (forall b0 b1 b2 b3 b4, [1; 2; 3; 4; 4] = [b0; b1; b2; b3; b4] ->
        (error = true <-> b4 <> Z.lxor (Z.lxor (Z.lxor b0 b1) b2) b3))) /\
  (exists error,
     anticoll2 sim_xfer2 s = (Ok (error, [1; 2; 3; 4; 4]), snd (anticoll2 sim_xfer2 s)) /\
     (length [1; 2; 3; 4; 4] <> 5%nat -> error = true) /\
     (forall b0 b1 b2 b3 b4, [1; 2; 3; 4; 4] = [b0; b1; b2; b3; b4] ->
        (error = true <-> b4 <> Z.lxor (Z.lxor (Z.lxor b0 b1) b2) b3))).
Proof.
  intros s. split.
  - apply (proj1 (anticoll_checksum Sim sim_xfer2 s [1; 2; 3; 4; 4] 40
                    (snd (anticoll sim_xfer2 s)))).
    vm_compute. reflexivity.
  - apply (proj2 (anticoll_checksum Sim sim_xfer2 s [1; 2; 3; 4; 4] 40
                    (snd (anticoll2 sim_xfer2 s)))).
    vm_compute. reflexivity.
Defined.

Lemma read_id_four_byte_uid_witness :
  let s0 := sim_session chip_uid4 in
  let s2 := snd (anticoll sim_xfer2 (snd (request sim_xfer2 0x26 s0))) in
  read_id sim_xfer2 true s0 = (Ok (PyInt 0x01020304), s2) /\
  read_id sim_xfer2 false s0 = (Ok (PyList [1; 2; 3; 4]), s2) /\
  calls s2 = [CRequest; CAnticoll].
Proof.
  intros s0 s2.
  assert (Hreq : request sim_xfer2 0x26 s0
                 = (Ok (false, Some 16), snd (request sim_xfer2 0x26 s0)))
    by (vm_compute; reflexivity).
  assert (Hanti : anticoll sim_xfer2 (snd (request sim_xfer2 0x26 s0))
                  = (Ok (false, [1; 2; 3; 4; 4]), s2))
    by (vm_compute; reflexivity).
  assert (Htag : hd_error [1; 2; 3; 4; 4] <> Some 0x88) by (simpl; congruence).
  split; [ | split].
  - exact (proj1 (read_id_four_byte_uid Sim sim_xfer2 sim_xfer2_wf true
                    s0 _ s2 _ _ Hreq Hanti Htag)).
  - exact (proj1 (read_id_four_byte_uid Sim sim_xfer2 sim_xfer2_wf false
                    s0 _ s2 _ _ Hreq Hanti Htag)).
  - exact (proj1 (proj2 (proj2 (read_id_four_byte_uid Sim sim_xfer2 sim_xfer2_wf
                    false s0 _ s2 _ _ Hreq Hanti Htag)))).
Defined.

Lemma read_id_seven_byte_uid_witness :
  exists s5,
    read_id sim_xfer2 false (sim_session chip_uid7)
      = (Ok (PyList [1; 2; 3; 4; 5; 6; 7]), s5) /\
    calls s5 = [CRequest; CAnticoll; CSelectTag; CAnticoll2].
Proof.
  pose (s0 := sim_session chip_uid7).
  pose (s1 := snd (request sim_xfer2 0x26 s0)).
  pose (s2 := snd (anticoll sim_xfer2 s1)).
  pose (s3 := snd (select_tag sim_xfer2 [0x88; 1; 2; 3; 0x88] s2)).
  pose (s4 := snd (anticoll2 sim_xfer2 s3)).
  assert (Hreq : request sim_xfer2 0x26 s0 = (Ok (false, Some 16), s1))
    by (vm_compute; reflexivity).
  assert (Hanti : anticoll sim_xfer2 s1 = (Ok (false, [0x88; 1; 2; 3; 0x88]), s2))
    by (vm_compute; reflexivity).
  assert (Htag : hd_error [0x88; 1; 2; 3; 0x88] = Some 0x88) by reflexivity.
  assert (Hsel : select_tag sim_xfer2 [0x88; 1; 2; 3; 0x88] s2 = (Ok false, s3))
    by (vm_compute; reflexivity).
  assert (Hanti2 : anticoll2 sim_xfer2 s3 = (Ok (false, [4; 5; 6; 7; 0]), s4))
    by (vm_compute; reflexivity).
  destruct (read_id_seven_byte_uid Sim sim_xfer2 sim_xfer2_wf false
              s0 s1 s2 s3 s4 _ _ _ Hreq Hanti Htag Hsel Hanti2)
    as (s5 & Hid & _ & Hcalls & _).
  exists s5. split; [exact Hid | exact Hcalls].
Defined.

(** C3 as stated fails: on a card with UID 01 .. 07 the five hypotheses
    hold and [read_id] returns the seven bytes, not stage-1 bytes 1..3
    followed by stage-2 bytes 0..2. *)
Lemma read_id_seven_byte_uid_counterexample :
  let s0 := sim_session chip_uid7 in
  let s1 := snd (request sim_xfer2 0x26 s0) in
  let s2 := snd (anticoll sim_xfer2 s1) in
  let uid := [0x88; 1; 2; 3; 0x88] in
  let s3 := snd (select_tag sim_xfer2 uid s2) in
  let s4 := snd (anticoll2 sim_xfer2 s3) in
  let uid2 := [4; 5; 6; 7; 0] in
  request sim_xfer2 0x26 s0 = (Ok (false, Some 16), s1) /\
  anticoll sim_xfer2 s1 = (Ok (false, uid), s2) /\
  hd_error uid = Some 0x88 /\
  select_tag sim_xfer2 uid s2 = (Ok false, s3) /\
  anticoll2 sim_xfer2 s3 = (Ok (false, uid2), s4) /\
  fst (read_id sim_xfer2 false s0) = Ok (PyList [1; 2; 3; 4; 5; 6; 7]) /\
  fst (read_id sim_xfer2 false s0)
    <> Ok (PyList (py_slice uid 1 4 ++ py_slice uid2 0 3)).
Proof.
  cbv zeta.
  split; [vm_compute; reflexivity | ].
  split; [vm_compute; reflexivity | ].
  split; [reflexivity | ].
  split; [vm_compute; reflexivity | ].
  split; [vm_compute; reflexivity | ].
  split; [vm_compute; reflexivity | ].
  vm_compute. discriminate.
Qed.

Lemma write_ack_phases_witness :
  (let s := sim_session chip_nack in
   let s1 := snd (procedure CWrite (write_phase sim_xfer2 [act_write; 4]) s) in
   write sim_xfer2 4 (repeat 0 16) s = (Ok true, s1) /\
   spi_log (snd (write sim_xfer2 4 (repeat 0 16) s)) = spi_log s1) /\
  (let s := sim_session chip_ack_nack in
   let s1 := snd (procedure CWrite (write_phase sim_xfer2 [act_write; 4]) s) in
   let s2 := snd (write_phase sim_xfer2 (firstn 16 (repeat 0 16)) s1) in
   write sim_xfer2 4 (repeat 0 16) s = (Ok true, s2)).
Proof.
  assert (Hnack : ~ is_ack [0x05] 4).
  { intros (_ & b & Hb & Hn). simpl in Hb. inversion Hb; subst b.
    vm_compute in Hn. discriminate. }
  split.
  - intros s s1.
    apply (proj1 (write_ack_phases Sim sim_xfer2 sim_xfer2_wf 4 (repeat 0 16) s
                    false [0x05] 4 s1 ltac:(vm_compute; reflexivity))).
    exact Hnack.
  - intros s s1 s2.
    apply (proj2 (write_ack_phases Sim sim_xfer2 sim_xfer2_wf 4 (repeat 0 16) s
                    false [0x0A] 4 s1 ltac:(vm_compute; reflexivity))
             ltac:(split; [reflexivity | exists 0x0A; split; reflexivity])
             eq_refl ltac:(simpl; lia) false [0x05] 4 s2).
    + vm_compute. reflexivity.
    + exact Hnack.
Defined.

Lemma card_auth_authenticated_witness :
  let s := sim_session chip_auth in
  let s' := snd (card_auth sim_xfer2 auth_a 4 (repeat 0xFF 6) [1; 2; 3; 4] s) in
  authed s' = true /\
  exists log x status,
    spi_log s' = log ++ [([read_frame addr_Status2Reg; 0], [x; status])] /\
    Z.land status 0x08 <> 0.
Proof.
  intros s s'.
  apply (proj1 (card_auth_authenticated Sim sim_xfer2 sim_xfer2_wf)
           auth_a 4 (repeat 0xFF 6) [1; 2; 3; 4] s s').
  vm_compute. reflexivity.
Defined.

Lemma calculate_crc_low_then_high_witness :
  exists lo hi s' setup polls x y,
    calculate_crc sim_xfer2 [act_end; 0] (sim_session chip_idle)
      = (Ok [lo; hi], s') /\
    spi_log s' =
      spi_log (sim_session chip_idle) ++ setup ++ polls ++
        [([read_frame addr_CRCResultReg22; 0], [x; lo]);
         ([read_frame addr_CRCResultReg21; 0], [y; hi])] /\
    length setup = 7%nat /\
    (1 <= length polls <= 255)%nat /\
    Forall (fun e => fst e = [read_frame addr_DivIrqReg; 0]) polls.
Proof.
  exact (calculate_crc_low_then_high Sim sim_xfer2 sim_xfer2_wf
           [act_end; 0] (sim_session chip_idle)).
Defined.

Lemma card_write_budget_exhausted_witness :
  exists s2,
    card_write sim_xfer2 mode_transrec [0x26] (sim_session chip_idle)
      = (Ok (false, [], 0), s2).
Proof.
  apply (card_write_budget_exhausted Sim sim_xfer2 sim_xfer2_wf
           mode_transrec [0x26] (sim_session chip_idle) 0
           (snd (card_write_issue sim_xfer2 mode_transrec [0x26]
                   (sim_session chip_idle)))).
  vm_compute. reflexivity.
Defined.

Lemma card_write_empty_fifo_witness :
  let s := sim_session chip_empty_fifo in
  let s1 := snd (card_write_issue sim_xfer2 mode_transrec [0x26] s) in
  let s2 := snd (clear_bitmask sim_xfer2 addr_BitFramingReg 0x80 s1) in
  let s3 := snd (dev_read sim_xfer2 addr_ErrorReg s2) in
  let s4 := snd (dev_read sim_xfer2 addr_FIFOLevelReg s3) in
  let s5 := snd (dev_read sim_xfer2 addr_ControlReg s4) in
  exists b s6,
    dev_read sim_xfer2 addr_FIFODataReg s5 = (Ok b, s6) /\
    card_write sim_xfer2 mode_transrec [0x26] s = (Ok (false, [b], 0), s6).
Proof.
  intros s s1 s2 s3 s4 s5.
  apply (card_write_empty_fifo Sim sim_xfer2 sim_xfer2_wf [0x26] s 0x30 1999
           s1 s2 0 s3 s4 0 s5);
    try (vm_compute; reflexivity).
  lia.
Defined.

(** C10 as stated fails: with 3 in the last-bits field of the control
    register, the transceive completes, the error register reads 0 and the
    FIFO level reads 0, one byte is drained, and the reported bit length is
    -5, not 0.  The last four exchanges are the reads of the error, FIFO
    level, control and FIFO data registers. *)
Lemma card_write_empty_fifo_counterexample :
  let r := card_write sim_xfer2 mode_transrec [0x26]
             (sim_session chip_empty_fifo_bits) in
  fst r = Ok (false, [0x5A], -5) /\
  skipn 13 (spi_log (snd r)) =
    [([read_frame addr_ErrorReg; 0], [0; 0]);
     ([read_frame addr_FIFOLevelReg; 0], [0; 0]);
     ([read_frame addr_ControlReg; 0], [0; 3]);
     ([read_frame addr_FIFODataReg; 0], [0; 0x5A])] /\
  -5 <> 0.
Proof.
  cbv zeta. split; [vm_compute; reflexivity | ].
  split; [vm_compute; reflexivity | lia].
Qed.

(** C2 (as the code behaves): on a chip whose interrupt-request register
    reads 0x01, timer expired and no wait-for bit, the loop of a transceive
    does not break at the first poll: after the 10 set-up exchanges it polls
    2000 times, reading 0x01 each time, and leaves with counter 0. *)
Theorem card_write_poll_ignores_timer_bit :
  let r := card_write_issue sim_xfer2 mode_transrec [0x26]
             (sim_session chip_timer) in
  poll_break 1999 0x01 0x30 = false /\
  fst r = Ok (0x01, 0) /\
  skipn 10 (spi_log (snd r)) =
    repeat ([read_frame addr_ComIrqReq; 0], [0; 0x01]) 2000.
Proof.
  cbv zeta. split; [reflexivity | ].
  split; vm_compute; reflexivity.
Qed.

Arguments set_antenna {Dev}.
Arguments reset {Dev}.
Arguments init {Dev}.
Arguments read {Dev}.
Arguments cleanup {Dev}.
Arguments sent_bytes {Dev}.

(** ** Further runs on the simulated chip and on the dead bus *)

Lemma dead_xfer2_wf : forall d data,
  length (fst (dead_xfer2 d data)) = length data /\
  Forall is_byte (fst (dead_xfer2 d data)).
Proof.
  intros d data. unfold dead_xfer2. simpl. split; [apply length_map | ].
  apply Forall_forall. intros x Hx. apply in_map_iff in Hx.
  destruct Hx as (? & <- & _). unfold is_byte. lia.
Qed.

Lemma card_write_exchange_budget_witness :
  exists r s' l,
    card_write sim_xfer2 mode_transrec [0x26] (sim_session chip_idle) = (Ok r, s') /\
    spi_log s' = spi_log (sim_session chip_idle) ++ l /\
    (length [0x26] + 10 <= length l <= length [0x26] + 2030)%nat.
Proof.
  exact (card_write_exchange_budget Sim sim_xfer2 sim_xfer2_wf
           mode_transrec [0x26] (sim_session chip_idle)).
Defined.

Lemma set_antenna_exchanges_witness :
  exists x1 v1 x2 v2 r s',
    set_antenna sim_xfer2 true (sim_session chip_idle) = (Ok tt, s') /\
    spi_log s' = spi_log (sim_session chip_idle) ++
      [([read_frame addr_TxControlReg; 0], [x1; v1]);
       ([read_frame addr_TxControlReg; 0], [x2; v2]);
       ([write_frame addr_TxControlReg; Z.lor v2 0x03], r)] /\
    Z.land (Z.lor v2 0x03) 0x03 = 0x03.
Proof.
  exact (proj1 (set_antenna_exchanges Sim sim_xfer2 sim_xfer2_wf
                  (sim_session chip_idle))).
Defined.

Lemma init_exchanges_witness :
  (exists s' l,
     init sim_xfer2 (sim_session chip_idle) = (Ok tt, s') /\
     spi_log s' = spi_log (sim_session chip_idle) ++ l /\
     length l = 15%nat /\
     authed s' = authed (sim_session chip_idle) /\
     antenna_gain s' = antenna_gain (sim_session chip_idle)) /\
  (exists s' l,
     init sim_xfer2 (set_gain 9 (sim_session chip_idle)) = (Raise ValueError, s') /\
     spi_log s' = spi_log (set_gain 9 (sim_session chip_idle)) ++ l /\
     length l = 11%nat /\
     authed s' = authed (set_gain 9 (sim_session chip_idle)) /\
     antenna_gain s' = antenna_gain (set_gain 9 (sim_session chip_idle))).
Proof.
  split.
  - apply (proj1 (init_exchanges Sim sim_xfer2 sim_xfer2_wf (sim_session chip_idle))).
    simpl. lia.
  - apply (proj2 (init_exchanges Sim sim_xfer2 sim_xfer2_wf
                    (set_gain 9 (sim_session chip_idle)))).
    simpl. lia.
Defined.

Lemma card_write_response_bounds_witness :
  exists error back_data back_length s',
    card_write sim_xfer2 mode_auth [auth_a; 4] (sim_session chip_auth)
      = (Ok (error, back_data, back_length), s') /\
    Forall is_byte back_data /\ (length back_data <= 16)%nat /\
    (mode_auth <> mode_transrec -> back_data = [] /\ back_length = 0).
Proof.
  exact (card_write_response_bounds Sim sim_xfer2 sim_xfer2_wf
           mode_auth [auth_a; 4] (sim_session chip_auth)).
Defined.

Lemma read_sixteen_bytes_witness :
  exists error back_data s',
    read sim_xfer2 4 (sim_session chip_block) = (Ok (error, back_data), s') /\
    Forall is_byte back_data /\ (length back_data <= 16)%nat /\
    (error = false -> length back_data = 16%nat) /\
    authed s' = authed (sim_session chip_block) /\
    calls s' = calls (sim_session chip_block).
Proof.
  exact (read_sixteen_bytes Sim sim_xfer2 sim_xfer2_wf 4 (sim_session chip_block)).
Defined.

Lemma cleanup_idempotent_witness :
  exists s',
    cleanup sim_xfer2 (set_authed true (sim_session chip_auth)) = (Ok tt, s') /\
    authed s' = false /\
    cleanup sim_xfer2 s' = (Ok tt, s') /\
    (authed (set_authed true (sim_session chip_auth)) = false ->
     s' = set_authed true (sim_session chip_auth)) /\
    (authed (set_authed true (sim_session chip_auth)) = true ->
     exists l,
       spi_log s' = spi_log (set_authed true (sim_session chip_auth)) ++ l /\
       length l = 2%nat /\
       calls s' = calls (set_authed true (sim_session chip_auth)) ++ [CStopCrypto]).
Proof.
  exact (cleanup_idempotent Sim sim_xfer2 sim_xfer2_wf
           (set_authed true (sim_session chip_auth))).
Defined.

Lemma request_tag_type_witness :
  exists error tag_type s',
    request sim_xfer2 0x26 (sim_session chip_uid4) = (Ok (error, tag_type), s') /\
    (error = false -> tag_type = Some 0x10) /\
    (error = true -> tag_type = None) /\
    calls s' = calls (sim_session chip_uid4) ++ [CRequest].
Proof.
  exact (request_tag_type Sim sim_xfer2 sim_xfer2_wf 0x26 (sim_session chip_uid4)).
Defined.

Lemma select_tag_short_uid_witness :
  select_tag sim_xfer2 [1; 2; 3; 4] (sim_session chip_uid4)
    = (Raise IndexError, enter CSelectTag (sim_session chip_uid4)).
Proof.
  apply (select_tag_short_uid Sim sim_xfer2 [1; 2; 3; 4] (sim_session chip_uid4)).
  simpl. lia.
Defined.

Lemma card_auth_short_uid_witness :
  card_auth sim_xfer2 auth_a 4 (repeat 0xFF 6) [1; 2; 3] (sim_session chip_auth)
    = (Raise IndexError, enter CCardAuth (sim_session chip_auth)).
Proof.
  apply (card_auth_short_uid Sim sim_xfer2 auth_a 4 (repeat 0xFF 6) [1; 2; 3]
           (sim_session chip_auth)).
  simpl. lia.
Defined.

Lemma write_ignores_extra_data_witness :
  write sim_xfer2 4 (repeat 7 20) (sim_session chip_ack_nack)
    = write sim_xfer2 4 (firstn 16 (repeat 7 20)) (sim_session chip_ack_nack).
Proof.
  apply (write_ignores_extra_data Sim sim_xfer2 4 (repeat 7 20)
           (sim_session chip_ack_nack)).
  simpl. lia.
Defined.

Lemma write_short_data_witness :
  let s := sim_session chip_ack_nack in
  let s1 := snd (procedure CWrite (write_phase sim_xfer2 [act_write; 4]) s) in
  write sim_xfer2 4 [1; 2; 3] s = (Raise IndexError, s1).
Proof.
  intros s s1.
  apply (write_short_data Sim sim_xfer2 sim_xfer2_wf 4 [1; 2; 3] s [0x0A] 4 s1).
  - vm_compute. reflexivity.
  - split; [reflexivity | exists 0x0A; split; reflexivity].
  - simpl. lia.
Defined.

Lemma read_id_no_card_witness :
  exists s',
    read_id dead_xfer2 true dead_session = (Ok PyNone, s') /\
    calls s' = calls dead_session ++ [CRequest] /\
    authed s' = authed dead_session.
Proof.
  apply (read_id_no_card unit dead_xfer2 dead_xfer2_wf).
  intros d. reflexivity.
Defined.

Lemma card_auth_after_timeout_witness :
  let s := sim_session chip_crypto_stuck in
  let buf := ([auth_a; 4] ++ repeat 0xFF 6) ++ firstn 4 [1; 2; 3; 4] in
  let s1 := snd (card_write_issue sim_xfer2 mode_auth buf (enter CCardAuth s)) in
  let s2 := snd (clear_bitmask sim_xfer2 addr_BitFramingReg 0x80 s1) in
  let s3 := snd (dev_read sim_xfer2 addr_Status2Reg s2) in
  card_auth sim_xfer2 auth_a 4 (repeat 0xFF 6) [1; 2; 3; 4] s
    = (Ok false, set_authed true s3).
Proof.
  intros s buf s1 s2 s3.
  apply (card_auth_after_timeout Sim sim_xfer2 auth_a 4 (repeat 0xFF 6) [1; 2; 3; 4]
           s 0 s1 s2 0x08 s3).
  - simpl. lia.
  - vm_compute. reflexivity.
  - vm_compute. reflexivity.
  - vm_compute. reflexivity.
  - vm_compute. discriminate.
Defined.

Lemma read_id_returns_witness :
  exists r s',
    read_id sim_xfer2 true (sim_session chip_uid7) = (Ok r, s') /\
    match r with
    | PyNone => True
    | PyList l =>
        true = false /\ (length l = 4%nat \/ length l = 7%nat) /\ Forall is_byte l
    | PyInt n => true = true /\ 0 <= n < 2 ^ 56
    end /\
    authed s' = authed (sim_session chip_uid7) /\
    antenna_gain s' = antenna_gain (sim_session chip_uid7).
Proof.
  exact (read_id_returns Sim sim_xfer2 sim_xfer2_wf true (sim_session chip_uid7)).
Defined.

Lemma driver_sends_bytes_witness :
  sent_bytes (snd (read_id sim_xfer2 false (sim_session chip_uid7))) /\
  sent_bytes (snd (write sim_xfer2 4 (repeat 7 16) (sim_session chip_uid7))) /\
  sent_bytes (snd (init sim_xfer2 (sim_session chip_uid7))).
Proof.
  assert (H0 : sent_bytes (sim_session chip_uid7)) by constructor.
  pose proof (driver_sends_bytes Sim sim_xfer2 sim_xfer2_wf (sim_session chip_uid7) H0)
    as (Hid & _ & Hw & _ & _ & Hinit).
  split; [apply Hid | split; [ | exact Hinit]].
  apply Hw.
  - unfold is_byte. lia.
  - apply Forall_forall. intros x Hx. apply repeat_spec in Hx. subst x.
    unfold is_byte. lia.
Defined.

Lemma register_frames_witness :
  (exists r s',
     dev_write sim_xfer2 addr_RFCfgReg 0x30 (sim_session chip_idle) = (Ok tt, s') /\
     spi_log s' = spi_log (sim_session chip_idle) ++ [([2 * addr_RFCfgReg; 0x30], r)]) /\
  (exists x v s',
     dev_read sim_xfer2 addr_RFCfgReg (sim_session chip_idle) = (Ok v, s') /\
     spi_log s' =
       spi_log (sim_session chip_idle) ++ [([2 * addr_RFCfgReg + 128; 0], [x; v])]).
Proof.
  apply (register_frames Sim sim_xfer2 sim_xfer2_wf addr_RFCfgReg 0x30
           (sim_session chip_idle)).
  unfold addr_RFCfgReg. lia.
Defined.
